(** * Byte-length calculation and buffer adaptation of deno_bson

    A shallow embedding of [src/parser/calculate_size.ts] and
    [src/ensure_buffer.ts], and the properties of the size computation
    stated over it. *)

From Stdlib Require Import ZArith NArith QArith Qround List String Ascii Bool Lia.
From Stdlib Require Import Permutation.
Import ListNotations.
Local Open Scope Z_scope.

(** ** JavaScript strings and their UTF-8 length *)

(** A JavaScript string is a sequence of UTF-16 code units. *)
Definition jsstring := list N.

(** An ASCII literal as a JavaScript string. *)
Fixpoint js (s : string) : jsstring :=
  match s with
  | EmptyString => []
  | String a rest => N_of_ascii a :: js rest
  end.

Definition isHighSurrogate (u : N) : bool := (55296 <=? u)%N && (u <=? 56319)%N.
Definition isLowSurrogate (u : N) : bool := (56320 <=? u)%N && (u <=? 57343)%N.

(** [Buffer.byteLength(s, "utf8")] of the imported buffer library: the number
    of bytes of the UTF-8 encoding of [s].  A code unit below 0x80 takes one
    byte, one below 0x800 two, a surrogate pair four, any other unit three
    (an unpaired surrogate is encoded as U+FFFD, which takes three). *)
Fixpoint Buffer_byteLength (s : jsstring) : Z :=
  match s with
  | [] => 0
  | u :: rest =>
      if (u <? 128)%N then 1 + Buffer_byteLength rest
      else if (u <? 2048)%N then 2 + Buffer_byteLength rest
      else if isHighSurrogate u then
        match rest with
        | l :: rest' =>
            if isLowSurrogate l then 4 + Buffer_byteLength rest'
            else 3 + Buffer_byteLength rest
        | [] => 3
        end
      else 3 + Buffer_byteLength rest
  end.

(** [i.toString()] for an array index: its decimal digits. *)
Fixpoint digits (d : Decimal.uint) : jsstring :=
  match d with
  | Decimal.Nil => []
  | Decimal.D0 r => 48%N :: digits r
  | Decimal.D1 r => 49%N :: digits r
  | Decimal.D2 r => 50%N :: digits r
  | Decimal.D3 r => 51%N :: digits r
  | Decimal.D4 r => 52%N :: digits r
  | Decimal.D5 r => 53%N :: digits r
  | Decimal.D6 r => 54%N :: digits r
  | Decimal.D7 r => 55%N :: digits r
  | Decimal.D8 r => 56%N :: digits r
  | Decimal.D9 r => 57%N :: digits r
  end.

Definition toString (i : nat) : jsstring := digits (Nat.to_uint i).

(** ** JavaScript numbers *)

(** A number is an IEEE double.  The finite doubles are rationals (every
    double is [m * 2^e]); the calculator only applies [Math.floor], [===],
    [>=] and [<=] to a number, and on finite doubles these agree with the
    exact operations on the rational value.  Negative zero is the rational
    0: the four operations do not tell it from positive zero. *)
Inductive number : Type :=
| Finite (q : Q)
| NaN
| PosInfinity
| NegInfinity.

Definition ofZ (z : Z) : number := Finite (inject_Z z).

Definition Math_floor (n : number) : number :=
  match n with
  | Finite q => Finite (inject_Z (Qfloor q))
  | other => other
  end.

(** [a === b] on numbers: NaN is equal to nothing. *)
Definition strictEquals (a b : number) : bool :=
  match a, b with
  | Finite p, Finite q => Qeq_bool p q
  | PosInfinity, PosInfinity => true
  | NegInfinity, NegInfinity => true
  | _, _ => false
  end.

(** [a <= b] on numbers. *)
Definition lessEq (a b : number) : bool :=
  match a, b with
  | NaN, _ | _, NaN => false
  | Finite p, Finite q => Qle_bool p q
  | NegInfinity, _ => true
  | _, PosInfinity => true
  | _, _ => false
  end.

(** [a >= b] on numbers. *)
Definition greaterEq (a b : number) : bool := lessEq b a.

(** ** Values *)

(** The flags of a native regular expression. *)
Record regexpFlags : Type := {
  global : bool;
  ignoreCase : bool;
  multiline : bool;
  dotAll : bool;
  unicode : bool;
  sticky : bool;
  hasIndices : bool;
  unicodeSets : bool
}.

Unset Elimination Schemes.

(** A value as the calculator can tell values apart.

    An object is given by its class (what [instanceof], [Array.isArray] and
    [ArrayBuffer.isView] observe, with the fields the calculator reads from
    an instance of that class), by the result of its [toBSON] method when it
    has one, and by [own], the (key, value) pairs a [for (key in object)] loop
    over it yields, which are also the entries [Object.keys] counts.

    The [toBSON] field is [Some r] when reading [object.toBSON] gives a
    function whose call returns [r] (the method takes no argument), and
    [None] when the object has no [toBSON] or a falsy one.  A method of the
    prototype is not enumerable and is given by the field alone; a [toBSON]
    that is an own enumerable property of the object is, besides, an entry
    of [own] like any other own property, with the function as its value.
    The objects whose [toBSON] is truthy and not a function, or a function
    that throws, are outside these sizes: [Host] below gives what the
    calculator does on them.  The fields of a DBRef hold no [toBSON].

    An array is given by its slots, a slot that is absent (a hole of a sparse
    array) being [VHole]: reading it gives undefined, the [for (key in
    object)] loop and [Object.keys] skip it.  [VHole] is not a value of its
    own and occurs as a slot of an array only; read anywhere else it is
    undefined as well.  An array has no enumerable property besides its
    indices; it may carry a [toBSON]. *)
Inductive value : Type :=
| VUndefined
| VNull
| VBoolean (b : bool)
| VNumber (n : number)
| VString (s : jsstring)
| VBigInt (z : Z)
| VSymbol (description : jsstring)
| VArray (toBSON : option value) (elems : list value)
| VObject (class : klass) (toBSON : option value) (own : list (jsstring * value))
| VHole
with klass : Type :=
| Plain
| MinKey
| MaxKey
| ObjectId
| Date
| Bytes (byteLength : N)
| Long
| Double
| Timestamp
| Decimal128
| Code (code : jsstring) (scope : value)
| Binary (sub_type : Z) (position : N)
| BSONSymbol (value : jsstring)
| DBRef (collection oid db : value) (fields : list (jsstring * value))
| RegExp (callable : bool) (source : jsstring) (flags : regexpFlags)
| BSONRegExp (pattern options : jsstring)
| Function (text : jsstring) (scope : value).

Set Elimination Schemes.

(** What the calculator imports from [constants.ts], [binary.ts] and
    [parser/utils.ts], none of which is among the sources: the bounds of the
    numeric width selection, the legacy byte-array sub-type, and the
    normalised source text of a function (as a function of its text). *)
Record imports : Type := {
  JS_INT_MIN : Z;
  JS_INT_MAX : Z;
  BSON_INT32_MIN : Z;
  BSON_INT32_MAX : Z;
  SUBTYPE_BYTE_ARRAY : Z;
  normalizedFunctionString : jsstring -> jsstring
}.

(** ** Reading a value *)

(** [value?.toBSON]: the result of the method, when the value has one. *)
Definition toBSON_of (v : value) : option value :=
  match v with
  | VArray hook _ => hook
  | VObject _ hook _ => hook
  | _ => None
  end.

(** [if (value?.toBSON) value = value.toBSON()]. *)
Definition applyToBSON (v : value) : value :=
  match v with
  | VArray (Some r) _ => r
  | VObject _ (Some r) _ => r
  | _ => v
  end.

(** [v != null]. *)
Definition notNull (v : value) : bool :=
  match v with
  | VNull | VUndefined | VHole => false
  | _ => true
  end.

(** A slot of an array that holds an element. *)
Definition isPresent (v : value) : bool :=
  match v with
  | VHole => false
  | _ => true
  end.

(** [Object.keys(v).length]. *)
Definition keyCount (v : value) : nat :=
  match v with
  | VObject _ _ own => List.length own
  | VArray _ elems => List.length (filter isPresent elems)
  | VString s => List.length s
  | _ => 0%nat
  end.

(** Equality of two property keys. *)
Definition sameKey (a b : jsstring) : bool :=
  if list_eq_dec N.eq_dec a b then true else false.

(** [key in props]. *)
Definition hasKey (key : jsstring) (props : list (jsstring * value)) : bool :=
  existsb (fun p => sameKey (fst p) key) props.

(** [(name != null ? Buffer.byteLength(name, "utf8") + 1 : 0)]; the name of
    an element is always a string. *)
Definition nameSize (name : jsstring) : Z := Buffer_byteLength name + 1.

(** The size of a string element. *)
Definition stringSize (name s : jsstring) : Z :=
  1 + Buffer_byteLength name + 1 + 4 + Buffer_byteLength s + 1.

(** The size of a native regular expression element. *)
Definition regexpSize (name source : jsstring) (f : regexpFlags) : Z :=
  nameSize name + 1 + Buffer_byteLength source + 1 +
  (if global f then 1 else 0) +
  (if ignoreCase f then 1 else 0) +
  (if multiline f then 1 else 0) +
  1.

(** ** The loops of calculateObjectSize

    The two functions of [calculate_size.ts] call each other.  The body of
    [calculateObjectSize] is written here over [element], the element sizing
    at the options of the call (name, value, isArray), and instantiated
    with [calculateElement] below. *)
Section Loops.
Variable element : jsstring -> value -> bool -> Z.

(** [for (let i = 0; i < object.length; i++)
      totalLength += calculateElement(i.toString(), object[i], ..., isArray, ...)],
    from index [i] on. *)
Fixpoint arrayLoop (i : nat) (elems : list value) (isArray : bool) : Z :=
  match elems with
  | [] => 0
  | v :: rest => element (toString i) v isArray + arrayLoop (S i) rest isArray
  end.

(** [for (const key in object)
      totalLength += calculateElement(key, object[key], ..., false, ...)]
    over the properties of an object. *)
Fixpoint propertyLoop (props : list (jsstring * value)) : Z :=
  match props with
  | [] => 0
  | (key, v) :: rest => element key v false + propertyLoop rest
  end.

(** The same loop over an array, from index [i] on: it runs over the
    indices that hold an element and skips the holes. *)
Fixpoint slotLoop (i : nat) (elems : list value) : Z :=
  match elems with
  | [] => 0
  | VHole :: rest => slotLoop (S i) rest
  | v :: rest => element (toString i) v false + slotLoop (S i) rest
  end.

(** The same loop over a string primitive: its keys are the indices and
    each property is the one-unit string at that index. *)
Fixpoint stringLoop (i : nat) (s : jsstring) : Z :=
  match s with
  | [] => 0
  | u :: rest => stringSize (toString i) [u] + stringLoop (S i) rest
  end.

(** The [for (const key in object)] loop of calculateObjectSize.  A
    primitive other than a string, null and undefined have nothing to
    enumerate. *)
Definition forInLoop (object : value) : Z :=
  match object with
  | VObject _ _ own => propertyLoop own
  | VArray _ elems => slotLoop 0 elems
  | VString s => stringLoop 0 s
  | _ => 0
  end.

(** The body of calculateObjectSize on an object that is not null. *)
Definition sizeOfObject (object : value) : Z :=
  let totalLength := 4 + 1 in
  match object with
  | VArray _ elems => totalLength + arrayLoop 0 elems true
  | _ => totalLength + forInLoop (applyToBSON object)
  end.

(** [calculateObjectSize(ordered_values, ...)] in the DBRef case, where
    [ordered_values = Object.assign({$ref: collection, $id: oid}, fields)]
    and then [ordered_values.$db = db] if [db != null].  A key of [fields]
    replaces the value of the same key; [$db] replaces or adds. *)
Fixpoint fieldsLoop (db : value) (fields : list (jsstring * value)) : Z :=
  match fields with
  | [] => 0
  | (key, v) :: rest =>
      (if notNull db && sameKey key (js "$db")
       then 0 else element key v false)
      + fieldsLoop db rest
  end.

Definition sizeOfOrderedValues (collection oid db : value)
    (fields : list (jsstring * value)) : Z :=
  4 + 1
  + (if hasKey (js "$ref") fields then 0 else element (js "$ref") collection false)
  + (if hasKey (js "$id") fields then 0 else element (js "$id") oid false)
  + fieldsLoop db fields
  + (if notNull db then element (js "$db") db false else 0).
End Loops.

(** ** calculateElement *)

(** The [switch (typeof value)] of calculateElement and the [return 0] after
    it, on the value left by the [toBSON] step; [element] stands for the
    function itself at the options of the call, as in the loops above. *)
Definition typeofSwitch (env : imports) (element : jsstring -> value -> bool -> Z)
    (name : jsstring) (value : value)
    (serializeFunctions isArray ignoreUndefined : bool) : Z :=
  match value with
  (* case "string" *)
  | VString s =>
      1 + Buffer_byteLength name + 1 + 4 + Buffer_byteLength s + 1
  (* case "number" *)
  | VNumber n =>
      if strictEquals (Math_floor n) n
         && greaterEq n (ofZ (JS_INT_MIN env))
         && lessEq n (ofZ (JS_INT_MAX env))
      then
        if greaterEq n (ofZ (BSON_INT32_MIN env))
           && lessEq n (ofZ (BSON_INT32_MAX env))
        then nameSize name + (4 + 1)
        else nameSize name + (8 + 1)
      else nameSize name + (8 + 1)
  (* case "undefined"; what [object[i]] reads from a hole is undefined *)
  | VUndefined | VHole =>
      if isArray || negb ignoreUndefined then nameSize name + 1 else 0
  (* case "boolean" *)
  | VBoolean _ => nameSize name + (1 + 1)
  (* case "object" *)
  | VNull => nameSize name + 1
  | VObject MinKey _ _ | VObject MaxKey _ _ => nameSize name + 1
  | VObject ObjectId _ _ => nameSize name + (12 + 1)
  | VObject Date _ _ => nameSize name + (8 + 1)
  | VObject (Bytes len) _ _ => nameSize name + (1 + 4 + 1) + Z.of_N len
  | VObject Long _ _ | VObject Double _ _ | VObject Timestamp _ _ =>
      nameSize name + (8 + 1)
  | VObject Decimal128 _ _ => nameSize name + (16 + 1)
  | VObject (Code code scope) _ _ =>
      if notNull scope && (0 <? keyCount scope)%nat
      then nameSize name + 1 + 4 + 4 + Buffer_byteLength code + 1
           + sizeOfObject element scope
      else nameSize name + 1 + 4 + Buffer_byteLength code + 1
  | VObject (Binary sub_type position) _ _ =>
      if sub_type =? SUBTYPE_BYTE_ARRAY env
      then nameSize name + (Z.of_N position + 1 + 4 + 1 + 4)
      else nameSize name + (Z.of_N position + 1 + 4 + 1)
  | VObject (BSONSymbol s) _ _ =>
      nameSize name + Buffer_byteLength s + 4 + 1 + 1
  | VObject (DBRef collection oid db fields) _ _ =>
      nameSize name + 1 + sizeOfOrderedValues element collection oid db fields
  | VObject (RegExp false source f) _ _ => regexpSize name source f
  | VObject (BSONRegExp pattern options) _ _ =>
      nameSize name + 1 + Buffer_byteLength pattern + 1
      + Buffer_byteLength options + 1
  | VObject Plain _ _ | VArray _ _ =>
      nameSize name + sizeOfObject element value + 1
  (* case "function": a regular expression of an engine where
     [typeof /re/ === "function"], then a function *)
  | VObject (RegExp true source f) _ _ => regexpSize name source f
  | VObject (Function text scope) _ _ =>
      if serializeFunctions && notNull scope && (0 <? keyCount scope)%nat
      then nameSize name + 1 + 4 + 4
           + Buffer_byteLength (normalizedFunctionString env text) + 1
           + sizeOfObject element scope
      else if serializeFunctions
      then nameSize name + 1 + 4
           + Buffer_byteLength (normalizedFunctionString env text) + 1
      else 0
  (* no case: "bigint", "symbol" *)
  | VBigInt _ | VSymbol _ => 0
  end.

Fixpoint calculateElement (env : imports) (name : jsstring) (value : value)
    (serializeFunctions isArray ignoreUndefined : bool) {struct value} : Z :=
  typeofSwitch env
    (fun k v a => calculateElement env k v serializeFunctions a ignoreUndefined)
    name (applyToBSON value) serializeFunctions isArray ignoreUndefined.

(** ** calculateObjectSize *)

Inductive error : Type :=
| TypeError
| RangeError
| Thrown.

Inductive result : Type :=
| Returns (n : Z)
| Throws (e : error).

(** The exported function, on the values above (every [toBSON] is a method
    that returns) and on a host whose call stack holds the recursion: the
    size, or the TypeError of reading [object.toBSON] when [object] is null
    or undefined.  The calls from calculateElement never pass such an object
    (the scope of a code value is tested with [!= null] first, the other two
    arguments are objects).  What the function does when a [toBSON] cannot
    be called or throws, or when the host stack is exhausted, is
    [Host.calculateObjectSize] below, which returns this size whenever no
    call fails. *)
Definition calculateObjectSize (env : imports) (object : value)
    (serializeFunctions ignoreUndefined : bool) : result :=
  if notNull object
  then Returns (sizeOfObject
         (fun k v a => calculateElement env k v serializeFunctions a ignoreUndefined)
         object)
  else Throws TypeError.

(** Modelled from the spec: [constants.ts] and [binary.ts] are not among the
    sources.  The 32-bit signed range is from -2^31 to 2^31 - 1 (2147483647
    takes the four-byte form, 2147483648 the eight-byte one), the
    safe-integer range is from -2^53 to 2^53, and the legacy byte-array
    sub-type of a binary is 2.  The normalisation of a function's text is
    left open. *)
Definition specImports (normalize : jsstring -> jsstring) : imports := {|
  JS_INT_MIN := - 2 ^ 53;
  JS_INT_MAX := 2 ^ 53;
  BSON_INT32_MIN := - 2147483648;
  BSON_INT32_MAX := 2147483647;
  SUBTYPE_BYTE_ARRAY := 2;
  normalizedFunctionString := normalize
|}.

(** A plain document [{ k1: v1, ... }] and an array [[v1, ...]]. *)
Definition document (props : list (jsstring * value)) : value :=
  VObject Plain None props.

Definition array (elems : list value) : value := VArray None elems.

(** ** The object sized for a DBRef *)

(** [target[key] = v]: the value of an existing key is replaced in place, a
    new key is added.  (A JavaScript engine enumerates integer-like keys
    first; a sum does not depend on the order.) *)
Fixpoint setProperty (key : jsstring) (v : value) (target : list (jsstring * value))
    : list (jsstring * value) :=
  match target with
  | [] => [(key, v)]
  | (k, x) :: rest =>
      if sameKey k key then (k, v) :: rest else (k, x) :: setProperty key v rest
  end.

(** [Object.assign(target, source)]. *)
Definition assign (target source : list (jsstring * value)) : list (jsstring * value) :=
  fold_left (fun t p => setProperty (fst p) (snd p) t) source target.

(** The [ordered_values] of the DBRef case. *)
Definition ordered_values (collection oid db : value)
    (fields : list (jsstring * value)) : list (jsstring * value) :=
  let ordered := assign [(js "$ref", collection); (js "$id", oid)] fields in
  if notNull db then setProperty (js "$db") db ordered else ordered.

(** ** Induction on values *)

Section ValueInduction.
Variable P : value -> Prop.

Definition onHook (hook : option value) : Prop :=
  match hook with
  | Some r => P r
  | None => True
  end.

Definition onProps (props : list (jsstring * value)) : Prop :=
  Forall (fun p => P (snd p)) props.

Definition onClass (class : klass) : Prop :=
  match class with
  | Code _ scope | Function _ scope => P scope
  | DBRef collection oid db fields =>
      P collection /\ P oid /\ P db /\ onProps fields
  | _ => True
  end.

Hypothesis Hundefined : P VUndefined.
Hypothesis Hnull : P VNull.
Hypothesis Hboolean : forall b, P (VBoolean b).
Hypothesis Hnumber : forall n, P (VNumber n).
Hypothesis Hstring : forall s, P (VString s).
Hypothesis Hbigint : forall z, P (VBigInt z).
Hypothesis Hsymbol : forall d, P (VSymbol d).
Hypothesis Harray : forall hook elems,
  onHook hook -> Forall P elems -> P (VArray hook elems).
Hypothesis Hobject : forall class hook own,
  onClass class -> onHook hook -> onProps own -> P (VObject class hook own).
Hypothesis Hhole : P VHole.

Fixpoint value_ind (v : value) : P v :=
  match v with
  | VUndefined => Hundefined
  | VNull => Hnull
  | VBoolean b => Hboolean b
  | VNumber n => Hnumber n
  | VString s => Hstring s
  | VBigInt z => Hbigint z
  | VSymbol d => Hsymbol d
  | VArray hook elems =>
      Harray hook elems
        (match hook return onHook hook with
         | Some r => value_ind r
         | None => I
         end)
        ((fix all (l : list value) : Forall P l :=
            match l with
            | [] => Forall_nil P
            | x :: rest => Forall_cons x (value_ind x) (all rest)
            end) elems)
  | VObject class hook own =>
      let props :=
        fix all (l : list (jsstring * value)) : onProps l :=
          match l return onProps l with
          | [] => Forall_nil _
          | p :: rest =>
              Forall_cons (P := fun p => P (snd p)) p (value_ind (snd p)) (all rest)
          end in
      Hobject class hook own
        (match class return onClass class with
         | Code _ scope | Function _ scope => value_ind scope
         | DBRef collection oid db fields =>
             conj (value_ind collection)
               (conj (value_ind oid) (conj (value_ind db) (props fields)))
         | _ => I
         end)
        (match hook return onHook hook with
         | Some r => value_ind r
         | None => I
         end)
        (props own)
  | VHole => Hhole
  end.
End ValueInduction.

(** ** Vocabulary of the properties *)

Definition sumZ (l : list Z) : Z := fold_right Z.add 0 l.

(** The elements a call of calculateObjectSize sizes: name, value and the
    [isArray] argument of each call of calculateElement, in order. *)
Fixpoint indexed (i : nat) (elems : list value) (isArray : bool)
    : list (jsstring * value * bool) :=
  match elems with
  | [] => []
  | v :: rest => (toString i, v, isArray) :: indexed (S i) rest isArray
  end.

Fixpoint characters (i : nat) (s : jsstring) : list (jsstring * value * bool) :=
  match s with
  | [] => []
  | u :: rest => (toString i, VString [u], false) :: characters (S i) rest
  end.

(** The slots of an array that the for-in loop visits, from index [i] on. *)
Fixpoint enumerated (i : nat) (elems : list value) : list (jsstring * value * bool) :=
  match elems with
  | [] => []
  | VHole :: rest => enumerated (S i) rest
  | v :: rest => (toString i, v, false) :: enumerated (S i) rest
  end.

Definition elementsOf (object : value) : list (jsstring * value * bool) :=
  match object with
  | VArray _ elems => indexed 0 elems true
  | _ =>
      match applyToBSON object with
      | VObject _ _ own => map (fun p => (fst p, snd p, false)) own
      | VArray _ elems => enumerated 0 elems
      | VString s => characters 0 s
      | _ => []
      end
  end.

(** The number as a double nearest to 3.14: 7070651414971679 / 2^51. *)
Definition double_3_14 : number := Finite (7070651414971679 # 2251799813685248).

(** The three tests of the numeric width selection. *)
Definition isWhole (n : number) : bool := strictEquals (Math_floor n) n.

Definition inSafeRange (env : imports) (n : number) : bool :=
  greaterEq n (ofZ (JS_INT_MIN env)) && lessEq n (ofZ (JS_INT_MAX env)).

Definition inInt32Range (env : imports) (n : number) : bool :=
  greaterEq n (ofZ (BSON_INT32_MIN env)) && lessEq n (ofZ (BSON_INT32_MAX env)).

(** [n] documents nested in one another under the key [a], around an empty
    one: [{}], [{a: {}}], [{a: {a: {}}}], ... *)
Fixpoint nested (n : nat) : value :=
  match n with
  | O => document []
  | S m => document [(js "a", nested m)]
  end.


(** The flags of a regular expression as a string with one character per
    flag that is set, as its [flags] property gives them. *)
Definition flagsString (f : regexpFlags) : jsstring :=
  (if hasIndices f then js "d" else [])
  ++ (if global f then js "g" else [])
  ++ (if ignoreCase f then js "i" else [])
  ++ (if multiline f then js "m" else [])
  ++ (if dotAll f then js "s" else [])
  ++ (if unicode f then js "u" else [])
  ++ (if unicodeSets f then js "v" else [])
  ++ (if sticky f then js "y" else []).

(** The flags the calculator counts: global, ignoreCase and multiline. *)
Definition countedFlags (f : regexpFlags) : jsstring :=
  (if global f then js "g" else [])
  ++ (if ignoreCase f then js "i" else [])
  ++ (if multiline f then js "m" else []).

(** The flags of [/a/y]: sticky alone. *)
Definition stickyOnly : regexpFlags := {|
  global := false; ignoreCase := false; multiline := false; dotAll := false;
  unicode := false; sticky := true; hasIndices := false; unicodeSets := false
|}.

(** The sizes [element] gives to a list of elements. *)
Definition sizes (element : jsstring -> value -> bool -> Z)
    (l : list (jsstring * value * bool)) : list Z :=
  map (fun e => element (fst (fst e)) (snd (fst e)) (snd e)) l.

(** [element] gives [v] a natural number under every name. *)
Definition nonneg (element : jsstring -> value -> bool -> Z) (v : value) : Prop :=
  forall name isArray, 0 <= element name v isArray.

(** What the induction on values carries for a value: its switch and its
    element size are natural numbers, so is what the loop over it adds, and
    as an object it has size 5 at least. *)
Definition sized (env : imports) (serializeFunctions ignoreUndefined : bool)
    (v : value) : Prop :=
  let element := fun k x a =>
    calculateElement env k x serializeFunctions a ignoreUndefined in
  (forall name isArray,
     0 <= typeofSwitch env element name v serializeFunctions isArray ignoreUndefined)
  /\ nonneg element v
  /\ 0 <= forInLoop element v
  /\ 5 <= sizeOfObject element v.

(** The loop over the properties whose key [keep] retains. *)
Definition keptLoop (element : jsstring -> value -> bool -> Z)
    (keep : jsstring -> bool) (props : list (jsstring * value)) : Z :=
  propertyLoop element (filter (fun p => keep (fst p)) props).

(** ** Vocabulary of the further properties *)

(** The elements that add no byte: an undefined field of a document under
    ignoreUndefined, a bigint, a symbol, and a function that is not
    serialised (each after the [toBSON] step). *)
Definition dropped (v : value) (serializeFunctions isArray ignoreUndefined : bool)
    : bool :=
  match applyToBSON v with
  | VUndefined | VHole => negb isArray && ignoreUndefined
  | VBigInt _ | VSymbol _ => true
  | VObject (Function _ _) _ _ => negb serializeFunctions
  | _ => false
  end.

(** What reading a slot of an array gives: undefined for a hole. *)
Definition readSlot (v : value) : value :=
  match v with
  | VHole => VUndefined
  | _ => v
  end.

(** The properties of the document that has, under each index of an array,
    what reading the array there gives: [{ "0": v0, "1": v1, ... }], from
    index [i] on. *)
Fixpoint keyed (i : nat) (elems : list value) : list (jsstring * value) :=
  match elems with
  | [] => []
  | v :: rest => (toString i, readSlot v) :: keyed (S i) rest
  end.

(** The properties of the document that has the elements of an array under
    the indices that hold one, from index [i] on. *)
Fixpoint listed (i : nat) (elems : list value) : list (jsstring * value) :=
  match elems with
  | [] => []
  | VHole :: rest => listed (S i) rest
  | v :: rest => (toString i, v) :: listed (S i) rest
  end.

(** [e1] gives [v] at most what [e2] gives it, under every name. *)
Definition below (e1 e2 : jsstring -> value -> bool -> Z) (v : value) : Prop :=
  forall name isArray, e1 name v isArray <= e2 name v isArray.

(** What the induction on values carries to compare the sizes at two
    settings of the options. *)
Definition ordered (env : imports) (sf1 iu1 sf2 iu2 : bool) (v : value) : Prop :=
  let e1 := fun k x a => calculateElement env k x sf1 a iu1 in
  let e2 := fun k x a => calculateElement env k x sf2 a iu2 in
  (forall name isArray,
     typeofSwitch env e1 name v sf1 isArray iu1
     <= typeofSwitch env e2 name v sf2 isArray iu2)
  /\ below e1 e2 v
  /\ forInLoop e1 v <= forInLoop e2 v
  /\ sizeOfObject e1 v <= sizeOfObject e2 v.

(** A tree without an undefined value and without a function, through the
    results of [toBSON], the scopes and the parts of a DBRef.  The scope of
    a code value and the db of a DBRef may be undefined (they are not sized
    then). *)
Fixpoint plainTree (v : value) : bool :=
  match v with
  | VUndefined | VHole => false
  | VArray hook elems =>
      match hook with
      | Some r => plainTree r
      | None => true
      end
      && forallb plainTree elems
  | VObject class hook own =>
      match class with
      | Function _ _ => false
      | Code _ scope =>
          match scope with
          | VUndefined => true
          | _ => plainTree scope
          end
      | DBRef collection oid db fields =>
          plainTree collection && plainTree oid
          && match db with
             | VUndefined => true
             | _ => plainTree db
             end
          && forallb (fun p => plainTree (snd p)) fields
      | _ => true
      end
      && match hook with
         | Some r => plainTree r
         | None => true
         end
      && forallb (fun p => plainTree (snd p)) own
  | _ => true
  end.

(** [e1] and [e2] give [v] the same size, under every name. *)
Definition same (e1 e2 : jsstring -> value -> bool -> Z) (v : value) : Prop :=
  forall name isArray, e1 name v isArray = e2 name v isArray.

(** What the induction on values carries to show that the options do not
    matter on a tree without undefined and functions. *)
Definition agreeing (env : imports) (sf1 iu1 sf2 iu2 : bool) (v : value) : Prop :=
  let e1 := fun k x a => calculateElement env k x sf1 a iu1 in
  let e2 := fun k x a => calculateElement env k x sf2 a iu2 in
  plainTree v = true ->
  (forall name isArray,
     typeofSwitch env e1 name v sf1 isArray iu1
     = typeofSwitch env e2 name v sf2 isArray iu2)
  /\ same e1 e2 v
  /\ forInLoop e1 v = forInLoop e2 v
  /\ sizeOfObject e1 v = sizeOfObject e2 v.

(** ** The calculator on a host: calls that fail

    [calculate_size.ts] has no [throw] of its own, but three of the calls it
    makes can fail: reading [object.toBSON] of null or undefined and calling
    a truthy [toBSON] that is not a function throw a TypeError, a [toBSON]
    method may throw, and the two functions call each other on the call
    stack of the host, which throws a RangeError when it is exhausted.
    [Host] is the calculator with these outcomes.  The host stack is the
    number [stack] of calls of the two functions that can still be nested. *)

(** [object[key]] on the own properties of an object. *)
Fixpoint getProperty (key : jsstring) (props : list (jsstring * value)) : option value :=
  match props with
  | [] => None
  | (k, v) :: rest => if sameKey k key then Some v else getProperty key rest
  end.

(** The keys of an object are distinct. *)
Fixpoint distinctKeys (props : list (jsstring * value)) : bool :=
  match props with
  | [] => true
  | (k, _) :: rest => negb (hasKey k rest) && distinctKeys rest
  end.

(** The size of an element in the cases of the switch that call nothing. *)
Definition leafCase (env : imports) (name : jsstring) (value : value)
    (serializeFunctions isArray ignoreUndefined : bool) : Z :=
  typeofSwitch env (fun _ _ _ => 0) name value
    serializeFunctions isArray ignoreUndefined.

Module Host.

(** The truth value of a value in a condition. *)
Definition truthy (v : value) : bool :=
  match v with
  | VUndefined | VNull | VHole => false
  | VBoolean b => b
  | VNumber (Finite q) => negb (Qeq_bool q 0)
  | VNumber NaN => false
  | VNumber _ => true
  | VString s => negb (Nat.eqb (List.length s) 0)
  | VBigInt z => negb (z =? 0)
  | VSymbol _ | VArray _ _ | VObject _ _ _ => true
  end.

(** [typeof v === "function"]. *)
Definition isFunction (v : value) : bool :=
  match v with
  | VObject (Function _ _) _ _ | VObject (RegExp true _ _) _ _ => true
  | _ => false
  end.

(** What reading [v.toBSON] gives: nothing or a falsy value; a truthy value
    that is not a function; or a function, with the value its call returns
    or without one when its call throws. *)
Inductive property : Type :=
| Missing
| NotCallable
| Method (returns : option value).

(** An own property hides the method of the prototype.  The value that the
    call of a [toBSON] function returns is the one the object records in its
    [toBSON] field; a [toBSON] function of an object that records none is
    one whose call throws. *)
Definition readToBSON (v : value) : property :=
  match v with
  | VObject _ hook own =>
      match getProperty (js "toBSON") own with
      | Some p =>
          if truthy p then (if isFunction p then Method hook else NotCallable)
          else Missing
      | None =>
          match hook with
          | Some r => Method (Some r)
          | None => Missing
          end
      end
  | VArray hook _ =>
      match hook with
      | Some r => Method (Some r)
      | None => Missing
      end
  | _ => Missing
  end.

Inductive step : Type :=
| Value (v : value)
| Raise (e : error).

(** [if (value?.toBSON) value = value.toBSON()]. *)
Definition toBSONStep (v : value) : step :=
  match readToBSON v with
  | Missing => Value v
  | NotCallable => Raise TypeError
  | Method (Some r) => Value r
  | Method None => Raise Thrown
  end.

Definition bind (r : result) (k : Z -> result) : result :=
  match r with
  | Returns n => k n
  | Throws e => Throws e
  end.

Notation "x <- r ;; k" := (bind r (fun x => k))
  (at level 61, r at next level, right associativity).

Section Loops.
Variable element : jsstring -> value -> bool -> result.

(** [for (let i = 0; i < object.length; i++)
      totalLength += calculateElement(i.toString(), object[i], ..., true, ...)],
    from index [i] on. *)
Fixpoint arrayLoop (totalLength : Z) (i : nat) (elems : list value) : result :=
  match elems with
  | [] => Returns totalLength
  | v :: rest =>
      size <- element (toString i) (readSlot v) true ;;
      arrayLoop (totalLength + size) (S i) rest
  end.

(** [for (const key in object)
      totalLength += calculateElement(key, object[key], ..., false, ...)]
    over the properties of an object, the slots of an array that hold an
    element, and the characters of a string. *)
Fixpoint propertyLoop (totalLength : Z) (props : list (jsstring * value)) : result :=
  match props with
  | [] => Returns totalLength
  | (key, v) :: rest =>
      size <- element key v false ;;
      propertyLoop (totalLength + size) rest
  end.

Fixpoint slotLoop (totalLength : Z) (i : nat) (elems : list value) : result :=
  match elems with
  | [] => Returns totalLength
  | VHole :: rest => slotLoop totalLength (S i) rest
  | v :: rest =>
      size <- element (toString i) v false ;;
      slotLoop (totalLength + size) (S i) rest
  end.

Fixpoint stringLoop (totalLength : Z) (i : nat) (s : jsstring) : result :=
  match s with
  | [] => Returns totalLength
  | u :: rest =>
      size <- element (toString i) (VString [u]) false ;;
      stringLoop (totalLength + size) (S i) rest
  end.

Definition forInLoop (totalLength : Z) (object : value) : result :=
  match object with
  | VObject _ _ own => propertyLoop totalLength own
  | VArray _ elems => slotLoop totalLength 0 elems
  | VString s => stringLoop totalLength 0 s
  | _ => Returns totalLength
  end.

(** The body of calculateObjectSize. *)
Definition objectBody (object : value) : result :=
  let totalLength := 4 + 1 in
  match object with
  | VArray _ elems => arrayLoop totalLength 0 elems
  | VNull | VUndefined | VHole => Throws TypeError
  | _ =>
      match toBSONStep object with
      | Raise e => Throws e
      | Value object => forInLoop totalLength object
      end
  end.
End Loops.

(** The [switch (typeof value)] of calculateElement; [objectSize] stands for
    calculateObjectSize at the options of the call.  The cases that call
    nothing are those of [typeofSwitch] above ([leafCase]). *)
Definition typeofSwitch (env : imports) (objectSize : value -> result)
    (name : jsstring) (value : value)
    (serializeFunctions isArray ignoreUndefined : bool) : result :=
  match value with
  | VObject (Code code scope) _ _ =>
      if notNull scope && (0 <? keyCount scope)%nat
      then size <- objectSize scope ;;
           Returns (nameSize name + 1 + 4 + 4 + Buffer_byteLength code + 1 + size)
      else Returns (nameSize name + 1 + 4 + Buffer_byteLength code + 1)
  | VObject (DBRef collection oid db fields) _ _ =>
      size <- objectSize (document (ordered_values collection oid db fields)) ;;
      Returns (nameSize name + 1 + size)
  | VObject Plain _ _ | VArray _ _ =>
      size <- objectSize value ;;
      Returns (nameSize name + size + 1)
  | VObject (Function text scope) _ _ =>
      if serializeFunctions && notNull scope && (0 <? keyCount scope)%nat
      then size <- objectSize scope ;;
           Returns (nameSize name + 1 + 4 + 4
                    + Buffer_byteLength (normalizedFunctionString env text) + 1
                    + size)
      else if serializeFunctions
      then Returns (nameSize name + 1 + 4
                    + Buffer_byteLength (normalizedFunctionString env text) + 1)
      else Returns 0
  | _ => Returns (leafCase env name value serializeFunctions isArray ignoreUndefined)
  end.

Fixpoint calculateElement (env : imports) (stack : nat) (name : jsstring)
    (value : value) (serializeFunctions isArray ignoreUndefined : bool)
    {struct stack} : result :=
  match stack with
  | O => Throws RangeError
  | S below =>
      match toBSONStep value with
      | Raise e => Throws e
      | Value value =>
          typeofSwitch env
            (fun object =>
               match below with
               | O => Throws RangeError
               | S below' =>
                   objectBody
                     (fun k v a =>
                        calculateElement env below' k v serializeFunctions a
                          ignoreUndefined)
                     object
               end)
            name value serializeFunctions isArray ignoreUndefined
      end
  end.

Definition calculateObjectSize (env : imports) (stack : nat) (object : value)
    (serializeFunctions ignoreUndefined : bool) : result :=
  match stack with
  | O => Throws RangeError
  | S below =>
      objectBody
        (fun k v a =>
           calculateElement env below k v serializeFunctions a ignoreUndefined)
        object
  end.

(** The [toBSON] field of [v] tells what reading and calling [v.toBSON]
    gives: a method that returns, or nothing. *)
Definition consistent (v : value) : bool :=
  match readToBSON v, toBSON_of v with
  | Missing, None => true
  | Method (Some _), Some _ => true
  | _, _ => false
  end.

(** The values of the sizes above: every [toBSON] in the tree is a method
    that returns or is missing, and the fields of a DBRef have distinct keys
    and no [toBSON]. *)
Fixpoint wellBehaved (v : value) : bool :=
  match v with
  | VArray hook elems =>
      match hook with
      | Some r => wellBehaved r
      | None => true
      end
      && forallb wellBehaved elems
  | VObject class hook own =>
      consistent (VObject class hook own)
      && match class with
         | Code _ scope | Function _ scope => wellBehaved scope
         | DBRef collection oid db fields =>
             wellBehaved collection && wellBehaved oid && wellBehaved db
             && forallb (fun p => wellBehaved (snd p)) fields
             && distinctKeys fields
             && consistent (document (ordered_values collection oid db fields))
         | _ => true
         end
      && match hook with
         | Some r => wellBehaved r
         | None => true
         end
      && forallb (fun p => wellBehaved (snd p)) own
  | _ => true
  end.

(** The height of a value: 1 for a value without parts, one more than its
    highest part (the result of [toBSON], an element, a property, a scope, a
    part of a DBRef) otherwise.  A stack of twice the height holds every
    call of calculateObjectSize on the value. *)
Fixpoint height (v : value) : nat :=
  match v with
  | VArray hook elems =>
      S (Nat.max
           match hook with
           | Some r => height r
           | None => O
           end
           (fold_right (fun x h => Nat.max (height x) h) O elems))
  | VObject class hook own =>
      S (Nat.max
           match class with
           | Code _ scope | Function _ scope => height scope
           | DBRef collection oid db fields =>
               Nat.max (height collection)
                 (Nat.max (height oid)
                    (Nat.max (height db)
                       (fold_right (fun p h => Nat.max (height (snd p)) h) O fields)))
           | _ => O
           end
           (Nat.max
              match hook with
              | Some r => height r
              | None => O
              end
              (fold_right (fun p h => Nat.max (height (snd p)) h) O own)))
  | _ => 1%nat
  end.

End Host.

(** The element sizing of the host, at [stack] and at the options. *)
Definition hostElement (env : imports) (stack : nat) (sf iu : bool)
    : jsstring -> value -> bool -> result :=
  fun k x a => Host.calculateElement env stack k x sf a iu.

(** What the induction on values carries to show that the host returns the
    sizes above on a well-behaved value when its stack is high enough: for
    the switch, for an element, for the for-in loop and for an object. *)
Definition hosted (env : imports) (sf iu : bool) (v : value) : Prop :=
  let e := fun k x a => calculateElement env k x sf a iu in
  Host.wellBehaved v = true ->
  (forall stack name isArray,
     (2 * Host.height v <= stack)%nat ->
     Host.typeofSwitch env (fun o => Host.calculateObjectSize env stack o sf iu)
       name v sf isArray iu
     = Returns (typeofSwitch env e name v sf isArray iu))
  /\ (forall stack name isArray,
     (2 * Host.height v + 1 <= stack)%nat ->
     Host.calculateElement env stack name v sf isArray iu
     = Returns (e name v isArray))
  /\ (forall stack total,
     (2 * Host.height v <= stack + 1)%nat ->
     Host.forInLoop (hostElement env stack sf iu) total v
     = Returns (total + forInLoop e v))
  /\ (forall stack,
     notNull v = true ->
     (2 * Host.height v <= stack)%nat ->
     Host.calculateObjectSize env stack v sf iu = Returns (sizeOfObject e v)).

(** ** ensureBuffer *)

Module EnsureBuffer.

(** An ArrayBuffer is a block of memory: its address stands for its
    identity, its length is fixed. *)
Record ArrayBuffer : Type := {
  address : nat;
  size : N
}.

(** The class of a view: the canonical Buffer of the buffer library, another
    typed array (a plain Uint8Array, a Float64Array, ...) or a DataView. *)
Inductive viewClass : Type :=
| BufferClass
| TypedArrayClass
| DataViewClass.

(** A view of an ArrayBuffer, what [ArrayBuffer.isView] accepts: an object
    of class [class] on the [byteLength] bytes of [buffer] from [byteOffset]
    on. *)
Record View : Type := {
  class : viewClass;
  buffer : ArrayBuffer;
  byteOffset : N;
  byteLength : N
}.

Inductive exception : Type :=
| BSONTypeError (message : string)
| RangeError.

Inductive outcome : Type :=
| Return (b : View)
| Throw (e : exception).

(** What ensureBuffer can be handed at run time. *)
Inductive input : Type :=
| IsView (v : View)
| IsArrayBuffer (b : ArrayBuffer)
| Other.

(** [Buffer.from(arrayBuffer, byteOffset, length)] of the imported buffer
    library: a new object of class Buffer on the memory of [arrayBuffer],
    without a copy; a RangeError when the bounds leave the block. *)
Definition Buffer_from (arrayBuffer : ArrayBuffer) (offset length : N) : outcome :=
  if (offset + length <=? size arrayBuffer)%N
  then Return {| class := BufferClass; buffer := arrayBuffer;
                 byteOffset := offset; byteLength := length |}
  else Throw RangeError.

Definition ensureBuffer (potentialBuffer : input) : outcome :=
  match potentialBuffer with
  | IsView v => Buffer_from (buffer v) (byteOffset v) (byteLength v)
  | IsArrayBuffer b => Buffer_from b 0 (size b)
  | Other => Throw (BSONTypeError "Must use either Buffer or TypedArray")
  end.

(** The views the engine builds stay inside their block. *)
Definition inBounds (v : View) : Prop :=
  (byteOffset v + byteLength v <= size (buffer v))%N.

(** The memory, and the bytes a view shows of it. *)
Definition memory := nat -> list Z.

Definition bytes (m : memory) (v : View) : list Z :=
  firstn (N.to_nat (byteLength v))
    (skipn (N.to_nat (byteOffset v)) (m (address (buffer v)))).

Definition isTypeError (o : outcome) : Prop :=
  exists message, o = Throw (BSONTypeError message).

End EnsureBuffer.

(** ** The model on concrete inputs *)

Example byteLength_ascii : Buffer_byteLength (js "hello") = 5.
Proof. reflexivity. Qed.

(** U+00E9 takes two bytes, U+20AC three, the pair D83D DE00 (U+1F600) four,
    an unpaired D83D three. *)
Example byteLength_wide :
  Buffer_byteLength [233; 8364; 55357; 56832; 55357]%N = 2 + 3 + 4 + 3.
Proof. reflexivity. Qed.

Example toString_index : toString 120 = js "120".
Proof. reflexivity. Qed.

(** [[undefined, 3, 3.14]] with ignoreUndefined: 5 + 3 + 7 + 11. *)
Example array_of_three :
  calculateObjectSize (specImports (fun s => s))
    (array [VUndefined; VNumber (ofZ 3); VNumber double_3_14]) false true
  = Returns 26.
Proof. reflexivity. Qed.

(** An object whose [toBSON] returns the string ["ab"], sized at the top
    level: the loop runs over the two characters. *)
Example toBSON_string_top_level :
  calculateObjectSize (specImports (fun s => s))
    (VObject Plain (Some (VString (js "ab"))) []) false false
  = Returns (5 + 9 + 9).
Proof. reflexivity. Qed.

(** A DBRef whose fields override [$ref]: the object sized is
    [{ $ref: null, $id: ObjectId, x: null }]. *)
Example dbref_with_fields :
  calculateElement (specImports (fun s => s)) (js "r")
    (VObject (DBRef (VString (js "c")) (VObject ObjectId None []) VNull
                [(js "$ref", VNull); (js "x", VNull)]) None [])
    false false false
  = 2 + 1 + (5 + 6 + 17 + 3).
Proof. reflexivity. Qed.

Example null_throws :
  calculateObjectSize (specImports (fun s => s)) VNull false false
  = Throws TypeError.
Proof. reflexivity. Qed.

(** ** Basic facts *)

Lemma Buffer_byteLength_cons (u : N) (rest : jsstring) :
  Buffer_byteLength (u :: rest) =
  if (u <? 128)%N then 1 + Buffer_byteLength rest
  else if (u <? 2048)%N then 2 + Buffer_byteLength rest
  else if isHighSurrogate u then
    match rest with
    | l :: rest' =>
        if isLowSurrogate l then 4 + Buffer_byteLength rest'
        else 3 + Buffer_byteLength rest
    | [] => 3
    end
  else 3 + Buffer_byteLength rest.
Proof. reflexivity. Qed.

Lemma Buffer_byteLength_nonneg (s : jsstring) : 0 <= Buffer_byteLength s.
Proof.
  remember (List.length s) as n eqn:Hn.
  revert s Hn.
  induction n as [n IH] using lt_wf_ind.
  intros [| u rest] Hn; [simpl; lia |].
  rewrite Buffer_byteLength_cons.
  assert (Hrest : 0 <= Buffer_byteLength rest).
  { apply (IH (List.length rest)); [subst n; simpl; lia | reflexivity]. }
  destruct (u <? 128)%N; [lia |].
  destruct (u <? 2048)%N; [lia |].
  destruct (isHighSurrogate u); [| lia].
  destruct rest as [| l rest']; [lia |].
  destruct (isLowSurrogate l); [| lia].
  assert (0 <= Buffer_byteLength rest').
  { apply (IH (List.length rest')); [subst n; simpl; lia | reflexivity]. }
  lia.
Qed.

Lemma nameSize_pos (name : jsstring) : 1 <= nameSize name.
Proof. unfold nameSize. pose proof (Buffer_byteLength_nonneg name). lia. Qed.

Lemma regexpSize_pos (name source : jsstring) (f : regexpFlags) :
  0 < regexpSize name source f.
Proof.
  unfold regexpSize.
  pose proof (nameSize_pos name).
  pose proof (Buffer_byteLength_nonneg source).
  destruct (global f), (ignoreCase f), (multiline f); lia.
Qed.

(** calculateElement is the [toBSON] step followed by the switch. *)
Lemma calculateElement_unfold env name v sf isArray iu :
  calculateElement env name v sf isArray iu =
  typeofSwitch env (fun k x a => calculateElement env k x sf a iu)
    name (applyToBSON v) sf isArray iu.
Proof. destruct v; reflexivity. Qed.

Lemma applyToBSON_hook v r : toBSON_of v = Some r -> applyToBSON v = r.
Proof.
  destruct v; simpl; try discriminate; intros ->; reflexivity.
Qed.

Lemma applyToBSON_none v : toBSON_of v = None -> applyToBSON v = v.
Proof.
  destruct v; simpl; try reflexivity; intros ->; reflexivity.
Qed.

Section LoopFacts.
Variable element : jsstring -> value -> bool -> Z.

Lemma arrayLoop_indexed i elems isArray :
  arrayLoop element i elems isArray = sumZ (sizes element (indexed i elems isArray)).
Proof.
  revert i. induction elems as [| v rest IH]; intros i; simpl; [reflexivity |].
  now rewrite IH.
Qed.

Lemma propertyLoop_map props :
  propertyLoop element props =
  sumZ (sizes element (map (fun p => (fst p, snd p, false)) props)).
Proof.
  induction props as [| [k v] rest IH]; simpl; [reflexivity |].
  now rewrite IH.
Qed.

Lemma slotLoop_enumerated i elems :
  slotLoop element i elems = sumZ (sizes element (enumerated i elems)).
Proof.
  revert i. induction elems as [| v rest IH]; intros i; [reflexivity |].
  destruct v; cbn [slotLoop enumerated]; rewrite IH; reflexivity.
Qed.

Hypothesis element_string :
  forall name s isArray, element name (VString s) isArray = stringSize name s.

Lemma stringLoop_characters i s :
  stringLoop i s = sumZ (sizes element (characters i s)).
Proof.
  revert i. induction s as [| u rest IH]; intros i; simpl; [reflexivity |].
  now rewrite IH, element_string.
Qed.

Lemma sizeOfObject_elements object :
  sizeOfObject element object = 4 + 1 + sumZ (sizes element (elementsOf object)).
Proof.
  assert (Hin : forall o, forInLoop element o =
    sumZ (sizes element match o with
                | VObject _ _ own => map (fun p => (fst p, snd p, false)) own
                | VArray _ elems => enumerated 0 elems
                | VString s => characters 0 s
                | _ => []
                end)).
  { intros o. destruct o; simpl; try reflexivity.
    - apply stringLoop_characters.
    - apply slotLoop_enumerated.
    - apply propertyLoop_map. }
  destruct object; unfold sizeOfObject, elementsOf;
    try (rewrite Hin; reflexivity).
  now rewrite arrayLoop_indexed.
Qed.
End LoopFacts.

Lemma sumZ_nonneg (l : list Z) : Forall (fun x => 0 <= x) l -> 0 <= sumZ l.
Proof. induction 1; simpl; lia. Qed.

Lemma sumZ_zero (l : list Z) :
  Forall (fun x => 0 <= x) l -> (sumZ l = 0 <-> Forall (fun x => x = 0) l).
Proof.
  induction 1 as [| x l Hx Hl IH]; simpl.
  - split; auto.
  - pose proof (sumZ_nonneg l Hl). split.
    + intros Hs. constructor; [lia | apply IH; lia].
    + intros Hall. inversion Hall; subst. apply IH in H3. lia.
Qed.

(** ** Every element size is a natural number *)

Section NonNegative.
Variable element : jsstring -> value -> bool -> Z.

Lemma arrayLoop_nonneg i elems isArray :
  Forall (nonneg element) elems -> 0 <= arrayLoop element i elems isArray.
Proof.
  intros H. revert i.
  induction H as [| v rest Hv _ IH]; intros i; simpl; [lia |].
  specialize (IH (S i)). specialize (Hv (toString i) isArray). lia.
Qed.

Lemma slotLoop_nonneg i elems :
  Forall (nonneg element) elems -> 0 <= slotLoop element i elems.
Proof.
  intros H. revert i.
  induction H as [| v rest Hv _ IH]; intros i; [cbn [slotLoop]; lia |].
  specialize (IH (S i)). specialize (Hv (toString i) false).
  destruct v; cbn [slotLoop]; lia.
Qed.

Lemma propertyLoop_nonneg props :
  Forall (fun p => (nonneg element) (snd p)) props -> 0 <= propertyLoop element props.
Proof.
  induction 1 as [| [k v] rest Hv _ IH]; simpl; [lia |].
  specialize (Hv k false). simpl in Hv. lia.
Qed.

Lemma stringSize_pos name s : 0 < stringSize name s.
Proof.
  unfold stringSize.
  pose proof (Buffer_byteLength_nonneg name).
  pose proof (Buffer_byteLength_nonneg s). lia.
Qed.

Lemma stringLoop_nonneg i s : 0 <= stringLoop i s.
Proof.
  revert i. induction s as [| u rest IH]; intros i; simpl; [lia |].
  specialize (IH (S i)). pose proof (stringSize_pos (toString i) [u]). lia.
Qed.

Lemma fieldsLoop_nonneg db fields :
  Forall (fun p => (nonneg element) (snd p)) fields -> 0 <= fieldsLoop element db fields.
Proof.
  induction 1 as [| [k v] rest Hv _ IH]; cbn [fieldsLoop]; [lia |].
  specialize (Hv k false). cbn [snd] in Hv.
  destruct (notNull db && sameKey k (js "$db")); lia.
Qed.

Lemma sizeOfOrderedValues_ge collection oid db fields :
  (nonneg element) collection -> (nonneg element) oid -> (nonneg element) db ->
  Forall (fun p => (nonneg element) (snd p)) fields ->
  5 <= sizeOfOrderedValues element collection oid db fields.
Proof.
  intros Hc Ho Hd Hf. unfold sizeOfOrderedValues.
  pose proof (fieldsLoop_nonneg db fields Hf).
  specialize (Hc (js "$ref") false). specialize (Ho (js "$id") false).
  specialize (Hd (js "$db") false).
  destruct (hasKey (js "$ref") fields), (hasKey (js "$id") fields), (notNull db); lia.
Qed.
End NonNegative.

Section ElementFacts.
Variables (env : imports) (serializeFunctions ignoreUndefined : bool).

Let element := fun k v a =>
  calculateElement env k v serializeFunctions a ignoreUndefined.

Lemma sized_all (v : value) : sized env serializeFunctions ignoreUndefined v.
Proof.
  induction v using value_ind.
  all: try solve [
    repeat split; try (intros name isArray); unfold element;
    try rewrite calculateElement_unfold; simpl; try lia;
    pose proof (nameSize_pos name);
    repeat match goal with |- context [if ?c then _ else _] => destruct c end;
    lia ].
  - (* string *)
    pose proof (fun name => stringSize_pos name s) as Hs.
    unfold stringSize in Hs.
    split; [| split; [| split]].
    + intros name isArray. cbn [typeofSwitch]. specialize (Hs name). lia.
    + intros name isArray. unfold element. rewrite calculateElement_unfold.
      cbn [applyToBSON typeofSwitch]. specialize (Hs name). lia.
    + cbn [forInLoop]. apply stringLoop_nonneg.
    + unfold sizeOfObject. cbn [applyToBSON forInLoop].
      pose proof (stringLoop_nonneg 0 s). lia.
  - (* array *)
    assert (Hnn : Forall (nonneg element) elems).
    { eapply Forall_impl; [| exact H0]. intros x Hx. apply Hx. }
    assert (Hloop : forall i a, 0 <= arrayLoop element i elems a).
    { intros i a. now apply arrayLoop_nonneg. }
    assert (Hsize : 5 <= sizeOfObject element (VArray hook elems)).
    { unfold sizeOfObject. specialize (Hloop 0%nat true). lia. }
    assert (Hswitch : forall name isArray,
      0 <= typeofSwitch env element name (VArray hook elems)
             serializeFunctions isArray ignoreUndefined).
    { intros name isArray. cbn [typeofSwitch].
      pose proof (nameSize_pos name). lia. }
    split; [exact Hswitch | split; [| split; [| exact Hsize]]].
    + intros name isArray. unfold element. rewrite calculateElement_unfold.
      fold element. destruct hook as [r |]; cbn [applyToBSON].
      * apply H.
      * apply Hswitch.
    + cbn [forInLoop]. now apply slotLoop_nonneg.
  - (* object *)
    assert (Hloop : 0 <= propertyLoop element own).
    { apply propertyLoop_nonneg.
      eapply Forall_impl; [| exact H1]. intros x Hx. apply Hx. }
    assert (Hsize : 5 <= sizeOfObject element (VObject class hook own)).
    { unfold sizeOfObject. destruct hook as [r |]; cbn [applyToBSON].
      - destruct H0 as (_ & _ & Hr & _).
        change (0 <= forInLoop element r) in Hr. lia.
      - cbn [forInLoop]. lia. }
    assert (Hswitch : forall name isArray,
      0 <= typeofSwitch env element name (VObject class hook own)
             serializeFunctions isArray ignoreUndefined).
    { intros name isArray. pose proof (nameSize_pos name).
      destruct class as [ | | | | | len | | | | | code scope | sub_type position
        | sym | collection oid db fields | callable source f
        | pattern options | text scope ]; cbn [typeofSwitch]; try lia.
      - (* Code *)
        destruct H as (_ & _ & _ & Hs).
        change (5 <= sizeOfObject element scope) in Hs.
        pose proof (Buffer_byteLength_nonneg code).
        destruct (notNull scope && (0 <? keyCount scope)%nat); lia.
      - (* Binary *)
        destruct (sub_type =? SUBTYPE_BYTE_ARRAY env); lia.
      - (* BSONSymbol *)
        pose proof (Buffer_byteLength_nonneg sym). lia.
      - (* DBRef *)
        destruct H as (Hc & Ho & Hd & Hf).
        pose proof (sizeOfOrderedValues_ge element collection oid db fields
          (proj1 (proj2 Hc)) (proj1 (proj2 Ho)) (proj1 (proj2 Hd))) as Hov.
        assert (Hfields : Forall (fun p => nonneg element (snd p)) fields).
        { eapply Forall_impl; [| exact Hf]. intros x Hx. apply Hx. }
        specialize (Hov Hfields). lia.
      - (* RegExp *)
        pose proof (regexpSize_pos name source f).
        destruct callable; lia.
      - (* BSONRegExp *)
        pose proof (Buffer_byteLength_nonneg pattern).
        pose proof (Buffer_byteLength_nonneg options). lia.
      - (* Function *)
        destruct H as (_ & _ & _ & Hs).
        change (5 <= sizeOfObject element scope) in Hs.
        pose proof (Buffer_byteLength_nonneg (normalizedFunctionString env text)).
        destruct (serializeFunctions && notNull scope && (0 <? keyCount scope)%nat);
          [lia |]. case serializeFunctions; lia. }
    split; [exact Hswitch | split; [| split; [exact Hloop | exact Hsize]]].
    intros name isArray. unfold element. rewrite calculateElement_unfold.
    fold element. destruct hook as [r |]; cbn [applyToBSON].
    + apply H0.
    + apply Hswitch.
Qed.

Lemma calculateElement_nonneg name v isArray :
  0 <= calculateElement env name v serializeFunctions isArray ignoreUndefined.
Proof. apply (proj1 (proj2 (sized_all v))). Qed.
End ElementFacts.

(** ** The size of a document *)

Lemma calculateElement_string env name s sf isArray iu :
  calculateElement env name (VString s) sf isArray iu = stringSize name s.
Proof. reflexivity. Qed.

(** What calculateObjectSize returns on an object: 4 + 1 and the sizes of
    its elements. *)
Lemma calculateObjectSize_elements env object sf iu :
  notNull object = true ->
  calculateObjectSize env object sf iu =
  Returns (4 + 1 + sumZ (sizes (fun k v a => calculateElement env k v sf a iu)
                           (elementsOf object))).
Proof.
  intros Hobject. unfold calculateObjectSize. rewrite Hobject.
  f_equal. apply sizeOfObject_elements.
  intros name s isArray. apply calculateElement_string.
Qed.

(** C1: for every document, calculateObjectSize returns 4 + 1 (length prefix
    and terminating null) plus the sum of the sizes of its elements, the
    size of a string element named [name] with value [s] being
    1 + utf8(name) + 1 + 4 + utf8(s) + 1; the document [{ "a": "hello" }]
    with both options unset has size 18. *)
Theorem C1_document_size :
  (forall env props sf iu,
     calculateObjectSize env (document props) sf iu =
     Returns (4 + 1 + sumZ (map (fun p =>
       calculateElement env (fst p) (snd p) sf false iu) props)))
  /\ (forall env elems sf iu,
     calculateObjectSize env (array elems) sf iu =
     Returns (4 + 1 + sumZ (map (fun e =>
       calculateElement env (fst (fst e)) (snd (fst e)) sf true iu)
       (indexed 0 elems true))))
  /\ (forall env name s sf isArray iu,
     calculateElement env name (VString s) sf isArray iu =
     1 + Buffer_byteLength name + 1 + 4 + Buffer_byteLength s + 1)
  /\ (forall env,
     calculateObjectSize env (document [(js "a", VString (js "hello"))]) false false =
     Returns 18).
Proof.
  split; [| split; [| split]]; [| | reflexivity | reflexivity].
  - intros env props sf iu.
    rewrite calculateObjectSize_elements by reflexivity.
    cbn [elementsOf document applyToBSON]. unfold sizes.
    rewrite map_map. reflexivity.
  - intros env elems sf iu.
    rewrite calculateObjectSize_elements by reflexivity.
    cbn [elementsOf array]. unfold sizes. do 3 f_equal.
    apply map_ext_in. intros [[k v] a] Hin. cbn [fst snd]. f_equal.
    clear -Hin. revert Hin. generalize 0%nat.
    induction elems as [| x rest IH]; intros i; simpl; [tauto |].
    intros [Heq | Hin]; [now inversion Heq | now apply (IH (S i))].
Qed.

(** ** Numeric width selection *)

(** C2: a number that is whole and lies within both the 32-bit signed range
    and the safe-integer range adds 4 + 1 bytes to the name; a whole number
    within the safe-integer range but outside the 32-bit range, and any
    number that is not whole, adds 8 + 1.  With the ranges of the spec,
    2147483647 takes the four-byte form, 2147483648 and 3.14 the eight-byte
    one. *)
Theorem C2_numeric_width :
  (forall env name n sf isArray iu,
     isWhole n = true -> inInt32Range env n = true -> inSafeRange env n = true ->
     calculateElement env name (VNumber n) sf isArray iu = nameSize name + (4 + 1))
  /\ (forall env name n sf isArray iu,
     isWhole n = true -> inSafeRange env n = true -> inInt32Range env n = false ->
     calculateElement env name (VNumber n) sf isArray iu = nameSize name + (8 + 1))
  /\ (forall env name n sf isArray iu,
     isWhole n = false ->
     calculateElement env name (VNumber n) sf isArray iu = nameSize name + (8 + 1))
  /\ (forall normalize name sf isArray iu,
     let env := specImports normalize in
     calculateElement env name (VNumber (ofZ 2147483647)) sf isArray iu
       = nameSize name + (4 + 1)
     /\ calculateElement env name (VNumber (ofZ 2147483648)) sf isArray iu
       = nameSize name + (8 + 1)
     /\ calculateElement env name (VNumber double_3_14) sf isArray iu
       = nameSize name + (8 + 1)).
Proof.
  unfold isWhole, inInt32Range, inSafeRange.
  split; [| split; [| split]].
  - intros env name n sf isArray iu Hw H32 Hsafe.
    cbn [calculateElement applyToBSON typeofSwitch].
    rewrite Hw. cbn [andb]. rewrite Hsafe, H32. reflexivity.
  - intros env name n sf isArray iu Hw Hsafe H32.
    cbn [calculateElement applyToBSON typeofSwitch].
    rewrite Hw. cbn [andb]. rewrite Hsafe, H32. reflexivity.
  - intros env name n sf isArray iu Hw.
    cbn [calculateElement applyToBSON typeofSwitch].
    rewrite Hw. reflexivity.
  - intros normalize name sf isArray iu. cbv zeta. split; [| split]; reflexivity.
Qed.

Lemma C2_numeric_width_witness :
  calculateElement (specImports (fun s => s)) (js "n") (VNumber (ofZ 7))
    false false false = nameSize (js "n") + (4 + 1)
  /\ calculateElement (specImports (fun s => s)) (js "n")
       (VNumber (ofZ 4294967296)) false false false = nameSize (js "n") + (8 + 1)
  /\ calculateElement (specImports (fun s => s)) (js "n")
       (VNumber (Finite (1 # 2))) false false false = nameSize (js "n") + (8 + 1).
Proof.
  split; [| split].
  - apply (proj1 C2_numeric_width); reflexivity.
  - apply (proj1 (proj2 C2_numeric_width)); reflexivity.
  - apply (proj1 (proj2 (proj2 C2_numeric_width))); reflexivity.
Defined.

(** ** Undefined *)

Lemma arrayLoop_app element i front back isArray :
  arrayLoop element i (front ++ back) isArray
  = arrayLoop element i front isArray
    + arrayLoop element (i + List.length front) back isArray.
Proof.
  revert i. induction front as [| v rest IH]; intros i; cbn [app arrayLoop List.length].
  - rewrite Nat.add_0_r. lia.
  - rewrite IH. replace (S i + List.length rest)%nat with (i + S (List.length rest))%nat
      by lia. lia.
Qed.

Lemma slotLoop_app element i front back :
  slotLoop element i (front ++ back)
  = slotLoop element i front + slotLoop element (i + List.length front) back.
Proof.
  revert i. induction front as [| v rest IH]; intros i; cbn [app List.length].
  - cbn [slotLoop]. rewrite Nat.add_0_r. lia.
  - replace (i + S (List.length rest))%nat with (S i + List.length rest)%nat by lia.
    destruct v; cbn [slotLoop]; rewrite IH; lia.
Qed.

(** C3, as the code has it: an undefined value named [name] adds nothing when
    ignoreUndefined is set and calculateElement is called with isArray
    false; with isArray true, or with the option unset, it adds
    utf8(name) + 1 + 1, the size of a null.  The loop of calculateObjectSize
    over an array passes isArray true: an undefined slot of an array that is
    sized directly, or that is the value of an element, is never dropped and
    has the size of a null at the same index.  An array that the [toBSON] of
    a top-level object returns goes through the for-in loop, which passes
    isArray false: under ignoreUndefined its undefined slot adds nothing,
    where a null at the same index adds its index and 2 bytes. *)
Theorem C3_undefined :
  (forall env name sf,
     calculateElement env name VUndefined sf false true = 0)
  /\ (forall env name sf iu,
     calculateElement env name VUndefined sf true iu = Buffer_byteLength name + 1 + 1)
  /\ (forall env name sf isArray,
     calculateElement env name VUndefined sf isArray false = Buffer_byteLength name + 1 + 1)
  /\ (forall env hook front back sf iu,
     calculateObjectSize env (VArray hook (front ++ VUndefined :: back)) sf iu
     = calculateObjectSize env (VArray hook (front ++ VNull :: back)) sf iu)
  /\ (forall env name front back sf isArray iu,
     calculateElement env name (VArray None (front ++ VUndefined :: back)) sf isArray iu
     = calculateElement env name (VArray None (front ++ VNull :: back)) sf isArray iu)
  /\ (forall env class own hook front back sf,
     exists with_null,
       calculateObjectSize env
         (VObject class (Some (VArray hook (front ++ VNull :: back))) own) sf true
       = Returns with_null
       /\ calculateObjectSize env
           (VObject class (Some (VArray hook (front ++ VUndefined :: back))) own) sf true
         = Returns (with_null
                    - (Buffer_byteLength (toString (List.length front)) + 1 + 1))).
Proof.
  split; [| split; [| split; [| split; [| split]]]].
  - reflexivity.
  - reflexivity.
  - intros env name sf isArray. destruct isArray; reflexivity.
  - intros env hook front back sf iu. unfold calculateObjectSize.
    cbn [notNull sizeOfObject]. now rewrite !arrayLoop_app.
  - intros env name front back sf isArray iu.
    rewrite !calculateElement_unfold. cbn [applyToBSON typeofSwitch sizeOfObject].
    now rewrite !arrayLoop_app.
  - intros env class own hook front back sf. unfold calculateObjectSize.
    cbn [notNull sizeOfObject applyToBSON forInLoop].
    eexists. split; [reflexivity |]. f_equal.
    rewrite !slotLoop_app. cbn [slotLoop].
    rewrite !calculateElement_unfold. cbn [applyToBSON typeofSwitch orb negb].
    unfold nameSize. rewrite Nat.add_0_l. lia.
Qed.

(** C3, as the claim states it, does not hold: the array [[undefined]] that
    the [toBSON] of a top-level object returns is the container of its slot,
    and under ignoreUndefined the slot is dropped: the size is 5, not
    5 + utf8("0") + 1 + 1. *)
Lemma C3_slot_of_returned_array_dropped :
  toBSON_of (VObject Plain (Some (array [VUndefined])) []) = Some (array [VUndefined])
  /\ calculateObjectSize (specImports (fun s => s))
       (VObject Plain (Some (array [VUndefined])) []) false true
     <> Returns (4 + 1 + (Buffer_byteLength (toString 0) + 1 + 1))
  /\ Host.calculateObjectSize (specImports (fun s => s)) 4
       (VObject Plain (Some (array [VUndefined])) []) false true
     = Returns (4 + 1).
Proof. split; [reflexivity | split; [vm_compute; discriminate | reflexivity]]. Qed.

(** ** Binary *)

(** C4: a Binary of [n] bytes adds, besides the name, n + 1 + 4 + 1 + 4 bytes
    when its sub-type is the legacy byte-array one and n + 1 + 4 + 1 bytes
    for any other sub-type. *)
Theorem C4_binary :
  forall env name sub_type n own sf isArray iu,
    (sub_type = SUBTYPE_BYTE_ARRAY env ->
     calculateElement env name (VObject (Binary sub_type n) None own) sf isArray iu
       - nameSize name = Z.of_N n + 1 + 4 + 1 + 4)
    /\ (sub_type <> SUBTYPE_BYTE_ARRAY env ->
     calculateElement env name (VObject (Binary sub_type n) None own) sf isArray iu
       - nameSize name = Z.of_N n + 1 + 4 + 1).
Proof.
  intros env name sub_type n own sf isArray iu.
  cbn [calculateElement applyToBSON typeofSwitch].
  split; intros Hsub.
  - apply Z.eqb_eq in Hsub. rewrite Hsub. lia.
  - apply Z.eqb_neq in Hsub. rewrite Hsub. lia.
Qed.

Lemma C4_binary_witness :
  calculateElement (specImports (fun s => s)) (js "b")
    (VObject (Binary 2 16) None []) false false false - nameSize (js "b")
    = 16 + 1 + 4 + 1 + 4
  /\ calculateElement (specImports (fun s => s)) (js "b")
       (VObject (Binary 0 16) None []) false false false - nameSize (js "b")
     = 16 + 1 + 4 + 1.
Proof.
  split.
  - apply (proj1 (C4_binary (specImports (fun s => s)) (js "b") 2 16%N []
                    false false false)).
    reflexivity.
  - apply (proj2 (C4_binary (specImports (fun s => s)) (js "b") 0 16%N []
                    false false false)).
    simpl. lia.
Defined.

(** ** The least size *)

(** C10: on every document or array and at every combination of the two
    options calculateObjectSize returns at least 5, and exactly 5 when, and
    only when, every element of the container adds 0 bytes - as for an
    empty document, or for one whose fields are a dropped undefined and a
    function that is not serialised. *)
Theorem C10_at_least_five :
  (forall env object sf iu,
     notNull object = true ->
     exists n,
       calculateObjectSize env object sf iu = Returns n
       /\ 5 <= n
       /\ (n = 5 <->
           Forall (fun e =>
             calculateElement env (fst (fst e)) (snd (fst e)) sf (snd e) iu = 0)
             (elementsOf object)))
  /\ (forall env sf iu,
     calculateObjectSize env (document []) sf iu = Returns 5
     /\ calculateObjectSize env
          (document [(js "u", VUndefined);
                     (js "f", VObject (Function (js "function(){}") VUndefined) None [])])
          false true = Returns 5).
Proof.
  split; [| intros env sf iu; split; reflexivity].
  intros env object sf iu Hobject.
  rewrite calculateObjectSize_elements by exact Hobject.
  set (element := fun k v a => calculateElement env k v sf a iu).
  assert (Hall : Forall (fun x => 0 <= x) (sizes element (elementsOf object))).
  { unfold sizes. apply Forall_map, Forall_forall. intros e _.
    apply calculateElement_nonneg. }
  eexists. split; [reflexivity |]. split.
  - pose proof (sumZ_nonneg _ Hall). lia.
  - pose proof (sumZ_zero _ Hall) as Hzero.
    unfold sizes in Hzero. rewrite Forall_map in Hzero.
    subst element. unfold sizes. cbv beta in Hzero |- *.
    split; intros H; [apply Hzero; lia | apply Hzero in H; lia].
Qed.

Lemma C10_at_least_five_witness :
  exists n,
    calculateObjectSize (specImports (fun s => s))
      (document [(js "a", VString (js "hello"))]) false false = Returns n
    /\ 5 <= n
    /\ (n = 5 <->
        Forall (fun e =>
          calculateElement (specImports (fun s => s))
            (fst (fst e)) (snd (fst e)) false (snd e) false = 0)
          (elementsOf (document [(js "a", VString (js "hello"))]))).
Proof.
  apply (proj1 C10_at_least_five). reflexivity.
Defined.

(** ** Nesting depth *)


Lemma nameSize_a : nameSize (js "a") = 2.
Proof. reflexivity. Qed.

Lemma sizeOfObject_nested env sf iu (n : nat) :
  sizeOfObject (fun k v a => calculateElement env k v sf a iu) (nested n)
  = 5 + 8 * Z.of_nat n.
Proof.
  induction n as [| m IH]; [reflexivity |].
  change (nested (S m)) with (document [(js "a", nested m)]).
  unfold document at 1, sizeOfObject at 1.
  cbn [applyToBSON forInLoop propertyLoop].
  rewrite calculateElement_unfold.
  assert (Hplain : applyToBSON (nested m) = nested m) by (destruct m; reflexivity).
  rewrite Hplain.
  assert (Hswitch : forall element name,
    typeofSwitch env element name (nested m) sf false iu
    = nameSize name + sizeOfObject element (nested m) + 1)
    by (intros; destruct m; reflexivity).
  rewrite Hswitch, IH, nameSize_a. lia.
Qed.

Lemma calculateObjectSize_nested env sf iu (n : nat) :
  calculateObjectSize env (nested n) sf iu = Returns (5 + 8 * Z.of_nat n).
Proof.
  unfold calculateObjectSize.
  assert (Hobject : notNull (nested n) = true) by (destruct n; reflexivity).
  rewrite Hobject. f_equal. apply sizeOfObject_nested.
Qed.

(** ** The toBSON step *)

(** C7, as the code has it: calculateElement invokes the [toBSON] of an
    element value first and runs its switch on the result in place of the
    value, so that the element has the size of the result (of a result
    without a [toBSON] of its own, exactly the size calculateElement gives
    it); calculateObjectSize invokes the [toBSON] of a top-level object that
    is not an array and sizes the fields of the result, which for a result
    that is an object without [toBSON] is the size of the result; the
    [toBSON] of a top-level array is not invoked, the array has the size of
    its own elements. *)
Theorem C7_toBSON :
  (forall env name v r sf isArray iu,
     toBSON_of v = Some r ->
     calculateElement env name v sf isArray iu =
     typeofSwitch env (fun k x a => calculateElement env k x sf a iu)
       name r sf isArray iu)
  /\ (forall env name v r sf isArray iu,
     toBSON_of v = Some r -> toBSON_of r = None ->
     calculateElement env name v sf isArray iu =
     calculateElement env name r sf isArray iu)
  /\ (forall env class r own sf iu,
     calculateObjectSize env (VObject class (Some r) own) sf iu =
     Returns (4 + 1 + forInLoop (fun k x a => calculateElement env k x sf a iu) r))
  /\ (forall env class class' own own' sf iu,
     calculateObjectSize env (VObject class (Some (VObject class' None own')) own) sf iu =
     calculateObjectSize env (VObject class' None own') sf iu)
  /\ (forall env hook elems sf iu,
     calculateObjectSize env (VArray hook elems) sf iu =
     calculateObjectSize env (array elems) sf iu).
Proof.
  split; [| split; [| split; [| split]]]; try reflexivity.
  - intros env name v r sf isArray iu Hhook.
    rewrite calculateElement_unfold. now rewrite (applyToBSON_hook v r Hhook).
  - intros env name v r sf isArray iu Hhook Hnone.
    rewrite (calculateElement_unfold env name v), (calculateElement_unfold env name r).
    now rewrite (applyToBSON_hook v r Hhook), (applyToBSON_none r Hnone).
Qed.

Lemma C7_toBSON_witness :
  calculateElement (specImports (fun s => s)) (js "k")
    (VObject Plain (Some (VString (js "id"))) [(js "x", VNull)]) false false false
  = calculateElement (specImports (fun s => s)) (js "k")
      (VString (js "id")) false false false.
Proof.
  apply (proj1 (proj2 C7_toBSON)); reflexivity.
Defined.

(** C7, as the claim states it, does not hold at the top level: an array
    that exposes [toBSON] is sized by its own elements, not as the result of
    the method. *)
Lemma C7_array_toBSON_not_invoked :
  toBSON_of (VArray (Some (document [])) [VString (js "x")]) = Some (document [])
  /\ calculateObjectSize (specImports (fun s => s))
       (VArray (Some (document [])) [VString (js "x")]) false false
     <> calculateObjectSize (specImports (fun s => s)) (document []) false false.
Proof. split; [reflexivity | vm_compute; discriminate]. Qed.

(** ** Regular expressions *)

Lemma Buffer_byteLength_countedFlags (f : regexpFlags) :
  Buffer_byteLength (countedFlags f) =
  (if global f then 1 else 0) + (if ignoreCase f then 1 else 0)
  + (if multiline f then 1 else 0).
Proof.
  unfold countedFlags.
  destruct (global f), (ignoreCase f), (multiline f); reflexivity.
Qed.

(** C8, as the code has it: a native regular expression adds, besides the
    tag byte and the name, utf8(source) + 1 + k + 1 bytes, where k counts
    those of the flags global, ignoreCase and multiline that are set (its
    other flags are not counted); a BSONRegExp adds
    utf8(pattern) + 1 + utf8(options) + 1. *)
Theorem C8_regexp :
  (forall env name callable source f own sf isArray iu,
     calculateElement env name (VObject (RegExp callable source f) None own)
       sf isArray iu - nameSize name - 1
     = Buffer_byteLength source + 1 + Buffer_byteLength (countedFlags f) + 1)
  /\ (forall env name pattern options own sf isArray iu,
     calculateElement env name (VObject (BSONRegExp pattern options) None own)
       sf isArray iu - nameSize name - 1
     = Buffer_byteLength pattern + 1 + Buffer_byteLength options + 1).
Proof.
  split.
  - intros env name callable source f own sf isArray iu.
    rewrite Buffer_byteLength_countedFlags.
    cbn [calculateElement applyToBSON typeofSwitch].
    destruct callable; unfold regexpSize; lia.
  - intros env name pattern options own sf isArray iu.
    cbn [calculateElement applyToBSON typeofSwitch]. lia.
Qed.

(** C8, as the claim states it, does not hold: the sticky flag of [/a/y] is
    a flag set on the expression, and no byte is counted for it. *)
Lemma C8_sticky_flag_not_counted :
  flagsString stickyOnly = js "y"
  /\ calculateElement (specImports (fun s => s)) (js "r")
       (VObject (RegExp false (js "a") stickyOnly) None [])
       false false false - nameSize (js "r") - 1
     <> Buffer_byteLength (js "a") + 1
        + Buffer_byteLength (flagsString stickyOnly) + 1.
Proof. split; [reflexivity | vm_compute; discriminate]. Qed.

(** ** ensureBuffer *)

(** C9: on a view of an ArrayBuffer, of whatever class, ensureBuffer returns
    an object of class Buffer on the same ArrayBuffer, at the same byteOffset
    and with the same byteLength, so that it shows the same bytes of the
    memory without a copy; on an ArrayBuffer it returns a Buffer over the
    bytes of that ArrayBuffer; it throws a BSONTypeError when, and only
    when, the input is neither. *)
Theorem C9_ensureBuffer :
  (forall v,
     EnsureBuffer.inBounds v ->
     exists b,
       EnsureBuffer.ensureBuffer (EnsureBuffer.IsView v) = EnsureBuffer.Return b
       /\ EnsureBuffer.class b = EnsureBuffer.BufferClass
       /\ EnsureBuffer.buffer b = EnsureBuffer.buffer v
       /\ EnsureBuffer.byteOffset b = EnsureBuffer.byteOffset v
       /\ EnsureBuffer.byteLength b = EnsureBuffer.byteLength v
       /\ forall m, EnsureBuffer.bytes m b = EnsureBuffer.bytes m v)
  /\ (forall ab,
     EnsureBuffer.ensureBuffer (EnsureBuffer.IsArrayBuffer ab) =
     EnsureBuffer.Return
       {| EnsureBuffer.class := EnsureBuffer.BufferClass;
          EnsureBuffer.buffer := ab;
          EnsureBuffer.byteOffset := 0;
          EnsureBuffer.byteLength := EnsureBuffer.size ab |})
  /\ (forall x,
     EnsureBuffer.isTypeError (EnsureBuffer.ensureBuffer x)
     <-> x = EnsureBuffer.Other).
Proof.
  split; [| split].
  - intros v Hbounds. unfold EnsureBuffer.inBounds in Hbounds.
    unfold EnsureBuffer.ensureBuffer, EnsureBuffer.Buffer_from.
    apply N.leb_le in Hbounds. rewrite Hbounds.
    eexists. split; [reflexivity |]. repeat split.
  - intros ab. unfold EnsureBuffer.ensureBuffer, EnsureBuffer.Buffer_from.
    rewrite N.add_0_l, N.leb_refl. reflexivity.
  - intros x. unfold EnsureBuffer.isTypeError. split.
    + intros [message Hthrow]. destruct x as [v | ab |]; [| | reflexivity];
        unfold EnsureBuffer.ensureBuffer, EnsureBuffer.Buffer_from in Hthrow.
      * destruct (_ <=? _)%N in Hthrow; discriminate.
      * destruct (_ <=? _)%N in Hthrow; discriminate.
    + intros ->. eexists. reflexivity.
Qed.

Lemma C9_ensureBuffer_witness :
  exists b,
    EnsureBuffer.ensureBuffer
      (EnsureBuffer.IsView
         {| EnsureBuffer.class := EnsureBuffer.DataViewClass;
            EnsureBuffer.buffer := {| EnsureBuffer.address := 1; EnsureBuffer.size := 16 |};
            EnsureBuffer.byteOffset := 4;
            EnsureBuffer.byteLength := 8 |}) = EnsureBuffer.Return b
    /\ EnsureBuffer.class b = EnsureBuffer.BufferClass
    /\ EnsureBuffer.buffer b = {| EnsureBuffer.address := 1; EnsureBuffer.size := 16 |}
    /\ EnsureBuffer.byteOffset b = 4%N
    /\ EnsureBuffer.byteLength b = 8%N
    /\ forall m,
         EnsureBuffer.bytes m b =
         EnsureBuffer.bytes m
           {| EnsureBuffer.class := EnsureBuffer.DataViewClass;
              EnsureBuffer.buffer := {| EnsureBuffer.address := 1; EnsureBuffer.size := 16 |};
              EnsureBuffer.byteOffset := 4;
              EnsureBuffer.byteLength := 8 |}.
Proof.
  apply (proj1 C9_ensureBuffer). unfold EnsureBuffer.inBounds. simpl. lia.
Defined.

(** ** The object sized for a DBRef *)

Lemma sameKey_true a b : sameKey a b = true <-> a = b.
Proof. unfold sameKey. destruct (list_eq_dec N.eq_dec a b); split; congruence. Qed.

Lemma sameKey_refl a : sameKey a a = true.
Proof. now apply sameKey_true. Qed.

Lemma sameKey_sym a b : sameKey a b = sameKey b a.
Proof.
  destruct (sameKey a b) eqn:Hab, (sameKey b a) eqn:Hba; try reflexivity.
  - apply sameKey_true in Hab. subst. now rewrite sameKey_refl in Hba.
  - apply sameKey_true in Hba. subst. now rewrite sameKey_refl in Hab.
Qed.

Lemma hasKey_In key props : hasKey key props = true <-> In key (map fst props).
Proof.
  unfold hasKey. rewrite existsb_exists, in_map_iff. split.
  - intros [p [Hin Heq]]. apply sameKey_true in Heq. now exists p.
  - intros [p [Heq Hin]]. exists p. split; [exact Hin | now apply sameKey_true].
Qed.

Lemma setProperty_keys key v target k :
  In k (map fst (setProperty key v target)) <-> k = key \/ In k (map fst target).
Proof.
  induction target as [| [k' x] rest IH]; simpl.
  - intuition.
  - destruct (sameKey k' key) eqn:Hsame; simpl.
    + apply sameKey_true in Hsame. subst k'. intuition.
    + rewrite IH. intuition.
Qed.

Lemma setProperty_NoDup key v target :
  NoDup (map fst target) -> NoDup (map fst (setProperty key v target)).
Proof.
  induction target as [| [k x] rest IH]; simpl; intros Hnd.
  - constructor; [intros [] | constructor].
  - inversion Hnd as [| ? ? Hnotin Hrest]; subst.
    destruct (sameKey k key) eqn:Hsame; simpl.
    + now constructor.
    + constructor; [| now apply IH].
      rewrite setProperty_keys. intros [-> | Hin]; [| contradiction].
      now rewrite sameKey_refl in Hsame.
Qed.

Section OrderedValues.
Variable element : jsstring -> value -> bool -> Z.

Lemma keptLoop_cons keep k x rest :
  keptLoop element keep ((k, x) :: rest) =
  (if keep k then element k x false else 0) + keptLoop element keep rest.
Proof. unfold keptLoop. simpl. destruct (keep k); simpl; lia. Qed.

Lemma keptLoop_ext keep keep' props :
  (forall k, In k (map fst props) -> keep k = keep' k) ->
  keptLoop element keep props = keptLoop element keep' props.
Proof.
  intros Hext. unfold keptLoop. f_equal. apply filter_ext_in.
  intros p Hin. apply Hext. now apply in_map.
Qed.

Lemma keptLoop_all props :
  keptLoop element (fun _ => true) props = propertyLoop element props.
Proof.
  unfold keptLoop. f_equal. induction props as [| p rest IH]; simpl; congruence.
Qed.

Lemma keptLoop_setProperty_dropped keep key v target :
  keep key = false ->
  keptLoop element keep (setProperty key v target) = keptLoop element keep target.
Proof.
  intros Hdrop. induction target as [| [k x] rest IH]; simpl.
  - rewrite keptLoop_cons, Hdrop. reflexivity.
  - destruct (sameKey k key) eqn:Hsame.
    + apply sameKey_true in Hsame. subst k.
      now rewrite !keptLoop_cons, Hdrop.
    + now rewrite !keptLoop_cons, IH.
Qed.

Lemma keptLoop_setProperty_kept keep key v target :
  keep key = true -> NoDup (map fst target) ->
  keptLoop element keep (setProperty key v target) =
  keptLoop element (fun k => keep k && negb (sameKey k key)) target + element key v false.
Proof.
  intros Hkeep. induction target as [| [k x] rest IH]; simpl; intros Hnd.
  - rewrite keptLoop_cons, Hkeep. unfold keptLoop. simpl. lia.
  - inversion Hnd as [| ? ? Hnotin Hrest]; subst.
    destruct (sameKey k key) eqn:Hsame.
    + rewrite !keptLoop_cons, Hsame.
      apply sameKey_true in Hsame. subst k. rewrite Hkeep. cbn [andb negb].
      rewrite (keptLoop_ext keep (fun k => keep k && negb (sameKey k key)) rest); [lia |].
      intros k Hin. destruct (sameKey k key) eqn:Hk; [| now rewrite andb_true_r].
      apply sameKey_true in Hk. subst k. contradiction.
    + rewrite !keptLoop_cons, Hsame, (IH Hrest). cbn [negb]. rewrite andb_true_r. lia.
Qed.

Lemma keptLoop_assign fields : forall keep target,
  NoDup (map fst fields) -> NoDup (map fst target) ->
  keptLoop element keep (assign target fields) =
  keptLoop element (fun k => keep k && negb (hasKey k fields)) target + keptLoop element keep fields.
Proof.
  induction fields as [| [key v] rest IH]; intros keep target Hfields Htarget.
  - unfold assign. cbn [fold_left].
    rewrite (keptLoop_ext (fun k => keep k && negb (hasKey k [])) keep target).
    + unfold keptLoop at 3. simpl. lia.
    + intros k _. cbn [hasKey existsb negb]. now rewrite andb_true_r.
  - inversion Hfields as [| ? ? Hnotin Hrest]; subst.
    change (assign target ((key, v) :: rest))
      with (assign (setProperty key v target) rest).
    rewrite IH by (auto using setProperty_NoDup).
    assert (Hnew : hasKey key rest = false).
    { destruct (hasKey key rest) eqn:Hk; [| reflexivity].
      apply hasKey_In in Hk. contradiction. }
    rewrite keptLoop_cons.
    assert (Hsplit : forall k,
      keep k && negb (hasKey k ((key, v) :: rest)) =
      (keep k && negb (hasKey k rest)) && negb (sameKey k key)).
    { intros k. unfold hasKey. simpl. rewrite (sameKey_sym key k).
      destruct (keep k), (sameKey k key), (existsb _ rest); reflexivity. }
    destruct (keep key) eqn:Hkeep.
    + rewrite keptLoop_setProperty_kept by (rewrite ?Hkeep, ?Hnew; auto).
      rewrite (keptLoop_ext (fun k => keep k && negb (hasKey k ((key, v) :: rest)))
                 (fun k => (keep k && negb (hasKey k rest)) && negb (sameKey k key))
                 target) by (intros; apply Hsplit).
      lia.
    + rewrite keptLoop_setProperty_dropped by (now rewrite Hkeep).
      rewrite (keptLoop_ext (fun k => keep k && negb (hasKey k ((key, v) :: rest)))
                 (fun k => keep k && negb (hasKey k rest)) target); [lia |].
      intros k _. rewrite Hsplit.
      destruct (sameKey k key) eqn:Hk; [| now rewrite andb_true_r].
      apply sameKey_true in Hk. subst k. now rewrite Hkeep.
Qed.
Lemma assign_NoDup fields : forall target,
  NoDup (map fst target) -> NoDup (map fst (assign target fields)).
Proof.
  induction fields as [| [key v] rest IH]; intros target Hnd; [exact Hnd |].
  apply IH. now apply setProperty_NoDup.
Qed.

Lemma fieldsLoop_kept db fields :
  fieldsLoop element db fields =
  keptLoop element (fun k => negb (notNull db && sameKey k (js "$db"))) fields.
Proof.
  induction fields as [| [k v] rest IH]; [reflexivity |].
  rewrite keptLoop_cons. cbn [fieldsLoop]. rewrite IH.
  destruct (notNull db && sameKey k (js "$db")); reflexivity.
Qed.

(** The DBRef case sizes the object [ordered_values]. *)
Lemma sizeOfOrderedValues_assign collection oid db fields :
  NoDup (map fst fields) ->
  sizeOfOrderedValues element collection oid db fields =
  sizeOfObject element (document (ordered_values collection oid db fields)).
Proof.
  intros Hfields.
  set (target := [(js "$ref", collection); (js "$id", oid)]).
  assert (Htarget : NoDup (map fst target)).
  { repeat constructor; simpl; intuition discriminate. }
  unfold sizeOfObject, document. cbn [applyToBSON forInLoop].
  unfold sizeOfOrderedValues, ordered_values. fold target.
  rewrite fieldsLoop_kept, <- keptLoop_all.
  destruct (notNull db) eqn:Hdb.
  - rewrite keptLoop_setProperty_kept by (auto using assign_NoDup).
    rewrite keptLoop_assign by assumption.
    unfold target at 1. rewrite !keptLoop_cons.
    change (sameKey (js "$ref") (js "$db")) with false.
    change (sameKey (js "$id") (js "$db")) with false.
    unfold keptLoop. cbn [andb negb filter propertyLoop]. cbv beta.
    destruct (hasKey (js "$ref") fields), (hasKey (js "$id") fields);
      cbn [negb]; lia.
  - rewrite keptLoop_assign by assumption.
    unfold target at 1. rewrite !keptLoop_cons.
    unfold keptLoop. cbn [andb negb filter propertyLoop]. cbv beta.
    destruct (hasKey (js "$ref") fields), (hasKey (js "$id") fields);
      cbn [negb]; lia.
Qed.
End OrderedValues.

(** The DBRef case of calculateElement as the source writes it:
    [nameSize + 1 + calculateObjectSize(ordered_values, ...)]. *)
Lemma calculateElement_DBRef env name collection oid db fields own sf isArray iu :
  NoDup (map fst fields) ->
  exists n,
    calculateObjectSize env (document (ordered_values collection oid db fields)) sf iu
      = Returns n
    /\ calculateElement env name (VObject (DBRef collection oid db fields) None own)
         sf isArray iu = nameSize name + 1 + n.
Proof.
  intros Hfields. eexists. split; [reflexivity |].
  cbn [calculateElement applyToBSON typeofSwitch].
  now rewrite sizeOfOrderedValues_assign.
Qed.

(** ** Which elements add nothing *)

Lemma sizeOfObject_ge env sf iu (v : value) :
  5 <= sizeOfObject (fun k x a => calculateElement env k x sf a iu) v.
Proof. apply (proj2 (proj2 (proj2 (sized_all env sf iu v)))). Qed.

Lemma sizeOfOrderedValues_calculateElement_ge env sf iu collection oid db fields :
  5 <= sizeOfOrderedValues (fun k x a => calculateElement env k x sf a iu)
         collection oid db fields.
Proof.
  apply sizeOfOrderedValues_ge.
  - intros name a. apply calculateElement_nonneg.
  - intros name a. apply calculateElement_nonneg.
  - intros name a. apply calculateElement_nonneg.
  - apply Forall_forall. intros p _ name a. apply calculateElement_nonneg.
Qed.

(** X1: calculateElement returns 0 exactly for the elements it leaves out (an
    undefined field of a document under ignoreUndefined, a bigint, a symbol,
    a function that is not serialised); every other element takes at least
    its tag byte, its name and the terminator of the name:
    utf8(name) + 2 bytes. *)
Theorem X1_zero_or_framed :
  forall env name v sf isArray iu,
    (dropped v sf isArray iu = true
     /\ calculateElement env name v sf isArray iu = 0)
    \/ (dropped v sf isArray iu = false
        /\ Buffer_byteLength name + 2 <= calculateElement env name v sf isArray iu).
Proof.
  intros env name v sf isArray iu.
  rewrite calculateElement_unfold. unfold dropped.
  set (element := fun k x a => calculateElement env k x sf a iu).
  pose proof (Buffer_byteLength_nonneg name) as Hname.
  destruct (applyToBSON v) as [ | | b | n | s | z | d | hook elems | class hook own | ];
    cbn [typeofSwitch]; unfold nameSize.
  - destruct isArray, iu; cbn [orb negb andb]; [right | right | left | right];
      split; try reflexivity; lia.
  - right. split; [reflexivity | lia].
  - right. split; [reflexivity | lia].
  - right. split; [reflexivity |].
    repeat match goal with |- context [if ?c then _ else _] => destruct c end; lia.
  - right. split; [reflexivity |].
    pose proof (Buffer_byteLength_nonneg s). lia.
  - left. split; reflexivity.
  - left. split; reflexivity.
  - right. split; [reflexivity |].
    pose proof (sizeOfObject_ge env sf iu (VArray hook elems)). fold element in H. lia.
  - destruct class as [ | | | | | len | | | | | code scope | sub_type position
        | sym | collection oid db fields | callable source f
        | pattern options | text scope ]; cbn [typeofSwitch]; unfold nameSize;
      try (right; split; [reflexivity | lia]).
    + right. split; [reflexivity |].
      pose proof (sizeOfObject_ge env sf iu (VObject Plain hook own)).
      fold element in H. lia.
    + right. split; [reflexivity |].
      pose proof (sizeOfObject_ge env sf iu scope). fold element in H.
      pose proof (Buffer_byteLength_nonneg code).
      destruct (notNull scope && (0 <? keyCount scope)%nat); lia.
    + right. split; [reflexivity |].
      destruct (sub_type =? SUBTYPE_BYTE_ARRAY env); lia.
    + right. split; [reflexivity |].
      pose proof (Buffer_byteLength_nonneg sym). lia.
    + right. split; [reflexivity |].
      pose proof (sizeOfOrderedValues_calculateElement_ge env sf iu
                    collection oid db fields).
      fold element in H. lia.
    + right. split; [reflexivity |].
      pose proof (Buffer_byteLength_nonneg source).
      unfold regexpSize, nameSize.
      destruct callable, (global f), (ignoreCase f), (multiline f); lia.
    + right. split; [reflexivity |].
      pose proof (Buffer_byteLength_nonneg pattern).
      pose proof (Buffer_byteLength_nonneg options). lia.
    + pose proof (sizeOfObject_ge env sf iu scope). fold element in H.
      pose proof (Buffer_byteLength_nonneg (normalizedFunctionString env text)).
      destruct sf; cbn [andb negb].
      * right. split; [reflexivity |].
        destruct (notNull scope && (0 <? keyCount scope)%nat); lia.
      * left. split; reflexivity.
  - destruct isArray, iu; cbn [orb negb andb]; [right | right | left | right];
      split; try reflexivity; lia.
Qed.

(** ** The two options and the size *)

Section LoopOrder.
Variables e1 e2 : jsstring -> value -> bool -> Z.

Lemma arrayLoop_below i elems isArray :
  Forall (below e1 e2) elems ->
  arrayLoop e1 i elems isArray <= arrayLoop e2 i elems isArray.
Proof.
  intros H. revert i.
  induction H as [| v rest Hv _ IH]; intros i; cbn [arrayLoop]; [lia |].
  specialize (IH (S i)). specialize (Hv (toString i) isArray). lia.
Qed.

Lemma slotLoop_below i elems :
  Forall (below e1 e2) elems -> slotLoop e1 i elems <= slotLoop e2 i elems.
Proof.
  intros H. revert i.
  induction H as [| v rest Hv _ IH]; intros i; [cbn [slotLoop]; lia |].
  specialize (IH (S i)). specialize (Hv (toString i) false).
  destruct v; cbn [slotLoop]; lia.
Qed.

Lemma propertyLoop_below props :
  Forall (fun p => below e1 e2 (snd p)) props ->
  propertyLoop e1 props <= propertyLoop e2 props.
Proof.
  induction 1 as [| [k v] rest Hv _ IH]; cbn [propertyLoop]; [lia |].
  specialize (Hv k false). cbn [snd] in Hv. lia.
Qed.

Lemma fieldsLoop_below db fields :
  Forall (fun p => below e1 e2 (snd p)) fields ->
  fieldsLoop e1 db fields <= fieldsLoop e2 db fields.
Proof.
  induction 1 as [| [k v] rest Hv _ IH]; cbn [fieldsLoop]; [lia |].
  specialize (Hv k false). cbn [snd] in Hv.
  destruct (notNull db && sameKey k (js "$db")); lia.
Qed.

Lemma sizeOfOrderedValues_below collection oid db fields :
  below e1 e2 collection -> below e1 e2 oid -> below e1 e2 db ->
  Forall (fun p => below e1 e2 (snd p)) fields ->
  sizeOfOrderedValues e1 collection oid db fields
  <= sizeOfOrderedValues e2 collection oid db fields.
Proof.
  intros Hc Ho Hd Hf. unfold sizeOfOrderedValues.
  pose proof (fieldsLoop_below db fields Hf).
  specialize (Hc (js "$ref") false). specialize (Ho (js "$id") false).
  specialize (Hd (js "$db") false).
  destruct (hasKey (js "$ref") fields), (hasKey (js "$id") fields), (notNull db); lia.
Qed.
End LoopOrder.

Lemma undefined_order (b1 b2 isArray : bool) (size : Z) :
  (b2 = true -> b1 = true) -> 0 <= size ->
  (if isArray || negb b1 then size else 0) <= (if isArray || negb b2 then size else 0).
Proof.
  intros Himp Hsize. destruct isArray, b1, b2; cbn [orb negb]; try lia.
  all: try discriminate (Himp eq_refl).
Qed.

Lemma function_order (b1 b2 c : bool) (withScope1 withScope2 without : Z) :
  (b1 = true -> b2 = true) ->
  withScope1 <= withScope2 -> 0 <= withScope2 -> 0 <= without ->
  (if b1 && c then withScope1 else if b1 then without else 0)
  <= (if b2 && c then withScope2 else if b2 then without else 0).
Proof.
  intros Himp Hle H2 H0. destruct b1, b2, c; cbn [andb]; try lia.
  all: try discriminate (Himp eq_refl).
Qed.

(** Switching on serializeFunctions, or switching off ignoreUndefined, makes
    no element smaller. *)
Lemma ordered_all env sf1 iu1 sf2 iu2 :
  (sf1 = true -> sf2 = true) -> (iu2 = true -> iu1 = true) ->
  forall v, ordered env sf1 iu1 sf2 iu2 v.
Proof.
  intros Hsf Hiu v. unfold ordered.
  set (e1 := fun k x a => calculateElement env k x sf1 a iu1).
  set (e2 := fun k x a => calculateElement env k x sf2 a iu2).
  induction v as [ | | b | n | s | z | d | hook elems Hhook Helems
                 | class hook own Hclass Hhook Hown | ] using value_ind.
  all: try solve [
    split; [| split; [| split]];
    [ intros name isArray; cbn [typeofSwitch]; lia
    | intros name isArray; unfold e1, e2; rewrite !calculateElement_unfold;
      cbn [applyToBSON typeofSwitch]; lia
    | cbn [forInLoop]; lia
    | unfold sizeOfObject; cbn [applyToBSON forInLoop]; lia ] ].
  - (* undefined *)
    assert (Hswitch : forall name isArray,
      typeofSwitch env e1 name VUndefined sf1 isArray iu1
      <= typeofSwitch env e2 name VUndefined sf2 isArray iu2).
    { intros name isArray. cbn [typeofSwitch].
      apply undefined_order; [exact Hiu |].
      pose proof (nameSize_pos name). lia. }
    split; [exact Hswitch | split; [| split]].
    + intros name isArray. unfold e1, e2. rewrite !calculateElement_unfold.
      apply Hswitch.
    + cbn [forInLoop]. lia.
    + unfold sizeOfObject. cbn [applyToBSON forInLoop]. lia.
  - (* array *)
    assert (Hbelow : Forall (below e1 e2) elems).
    { eapply Forall_impl; [| exact Helems]. intros x Hx. apply Hx. }
    assert (Hloop : forall i a, arrayLoop e1 i elems a <= arrayLoop e2 i elems a).
    { intros i a. now apply arrayLoop_below. }
    assert (Hsize : sizeOfObject e1 (VArray hook elems)
                    <= sizeOfObject e2 (VArray hook elems)).
    { unfold sizeOfObject. specialize (Hloop 0%nat true). lia. }
    assert (Hswitch : forall name isArray,
      typeofSwitch env e1 name (VArray hook elems) sf1 isArray iu1
      <= typeofSwitch env e2 name (VArray hook elems) sf2 isArray iu2).
    { intros name isArray. cbn [typeofSwitch]. lia. }
    split; [exact Hswitch | split; [| split; [| exact Hsize]]].
    + intros name isArray. unfold e1, e2. rewrite !calculateElement_unfold.
      fold e1 e2. destruct hook as [r |]; cbn [applyToBSON].
      * apply Hhook.
      * apply Hswitch.
    + cbn [forInLoop]. now apply slotLoop_below.
  - (* object *)
    assert (Hloop : propertyLoop e1 own <= propertyLoop e2 own).
    { apply propertyLoop_below.
      eapply Forall_impl; [| exact Hown]. intros x Hx. apply Hx. }
    assert (Hsize : sizeOfObject e1 (VObject class hook own)
                    <= sizeOfObject e2 (VObject class hook own)).
    { unfold sizeOfObject. destruct hook as [r |]; cbn [applyToBSON].
      - destruct Hhook as (_ & _ & Hr & _). lia.
      - cbn [forInLoop]. lia. }
    assert (Hswitch : forall name isArray,
      typeofSwitch env e1 name (VObject class hook own) sf1 isArray iu1
      <= typeofSwitch env e2 name (VObject class hook own) sf2 isArray iu2).
    { intros name isArray.
      destruct class as [ | | | | | len | | | | | code scope | sub_type position
        | sym | collection oid db fields | callable source f
        | pattern options | text scope ]; cbn [typeofSwitch]; try lia.
      - (* Code *)
        destruct Hclass as (_ & _ & _ & Hs).
        destruct (notNull scope && (0 <? keyCount scope)%nat); lia.
      - (* DBRef *)
        destruct Hclass as (Hc & Ho & Hd & Hf).
        pose proof (sizeOfOrderedValues_below e1 e2 collection oid db fields
          (proj1 (proj2 Hc)) (proj1 (proj2 Ho)) (proj1 (proj2 Hd))) as Hov.
        assert (Hfields : Forall (fun p => below e1 e2 (snd p)) fields).
        { eapply Forall_impl; [| exact Hf]. intros x Hx. apply Hx. }
        specialize (Hov Hfields). lia.
      - (* Function *)
        destruct Hclass as (_ & _ & _ & Hs).
        pose proof (sizeOfObject_ge env sf2 iu2 scope) as Hge. fold e2 in Hge.
        pose proof (nameSize_pos name).
        pose proof (Buffer_byteLength_nonneg (normalizedFunctionString env text)).
        rewrite <- !andb_assoc.
        apply function_order; [exact Hsf | lia | lia | lia]. }
    split; [exact Hswitch | split; [| split; [exact Hloop | exact Hsize]]].
    intros name isArray. unfold e1, e2. rewrite !calculateElement_unfold.
    fold e1 e2. destruct hook as [r |]; cbn [applyToBSON].
    + apply Hhook.
    + apply Hswitch.
  - (* hole *)
    assert (Hswitch : forall name isArray,
      typeofSwitch env e1 name VHole sf1 isArray iu1
      <= typeofSwitch env e2 name VHole sf2 isArray iu2).
    { intros name isArray. cbn [typeofSwitch].
      apply undefined_order; [exact Hiu |].
      pose proof (nameSize_pos name). lia. }
    split; [exact Hswitch | split; [| split]].
    + intros name isArray. unfold e1, e2. rewrite !calculateElement_unfold.
      apply Hswitch.
    + cbn [forInLoop]. lia.
    + unfold sizeOfObject. cbn [applyToBSON forInLoop]. lia.
Qed.

(** X2: switching ignoreUndefined on never makes an element or an object
    larger. *)
Theorem X2_ignoreUndefined_shrinks :
  (forall env name v sf isArray,
     calculateElement env name v sf isArray true
     <= calculateElement env name v sf isArray false)
  /\ (forall env object sf,
     notNull object = true ->
     exists dropping keeping,
       calculateObjectSize env object sf true = Returns dropping
       /\ calculateObjectSize env object sf false = Returns keeping
       /\ dropping <= keeping).
Proof.
  assert (Hord : forall env sf v, ordered env sf true sf false v).
  { intros env sf v. apply ordered_all; [auto | discriminate]. }
  split.
  - intros env name v sf isArray.
    apply (proj1 (proj2 (Hord env sf v))).
  - intros env object sf Hobject. unfold calculateObjectSize. rewrite Hobject.
    do 2 eexists. split; [reflexivity | split; [reflexivity |]].
    apply (proj2 (proj2 (proj2 (Hord env sf object)))).
Qed.

Lemma X2_ignoreUndefined_shrinks_witness :
  exists dropping keeping,
    calculateObjectSize (specImports (fun s => s))
      (document [(js "a", VUndefined); (js "b", VNull)]) false true
      = Returns dropping
    /\ calculateObjectSize (specImports (fun s => s))
         (document [(js "a", VUndefined); (js "b", VNull)]) false false
       = Returns keeping
    /\ dropping <= keeping.
Proof.
  apply (proj2 X2_ignoreUndefined_shrinks). reflexivity.
Defined.

(** X3: switching serializeFunctions on never makes an element or an object
    smaller. *)
Theorem X3_serializeFunctions_grows :
  (forall env name v isArray iu,
     calculateElement env name v false isArray iu
     <= calculateElement env name v true isArray iu)
  /\ (forall env object iu,
     notNull object = true ->
     exists without with_functions,
       calculateObjectSize env object false iu = Returns without
       /\ calculateObjectSize env object true iu = Returns with_functions
       /\ without <= with_functions).
Proof.
  assert (Hord : forall env iu v, ordered env false iu true iu v).
  { intros env iu v. apply ordered_all; auto. }
  split.
  - intros env name v isArray iu.
    apply (proj1 (proj2 (Hord env iu v))).
  - intros env object iu Hobject. unfold calculateObjectSize. rewrite Hobject.
    do 2 eexists. split; [reflexivity | split; [reflexivity |]].
    apply (proj2 (proj2 (proj2 (Hord env iu object)))).
Qed.

Lemma X3_serializeFunctions_grows_witness :
  exists without with_functions,
    calculateObjectSize (specImports (fun s => s))
      (document [(js "f", VObject (Function (js "function(){}") VUndefined) None [])])
      false false = Returns without
    /\ calculateObjectSize (specImports (fun s => s))
         (document [(js "f", VObject (Function (js "function(){}") VUndefined) None [])])
         true false = Returns with_functions
    /\ without <= with_functions.
Proof.
  apply (proj2 X3_serializeFunctions_grows). reflexivity.
Defined.

Section LoopAgreement.
Variables e1 e2 : jsstring -> value -> bool -> Z.

Lemma arrayLoop_same i elems isArray :
  Forall (same e1 e2) elems ->
  arrayLoop e1 i elems isArray = arrayLoop e2 i elems isArray.
Proof.
  intros H. revert i.
  induction H as [| v rest Hv _ IH]; intros i; cbn [arrayLoop]; [reflexivity |].
  now rewrite (IH (S i)), (Hv (toString i) isArray).
Qed.

Lemma slotLoop_same i elems :
  Forall (same e1 e2) elems -> slotLoop e1 i elems = slotLoop e2 i elems.
Proof.
  intros H. revert i.
  induction H as [| v rest Hv _ IH]; intros i; [reflexivity |].
  specialize (IH (S i)). specialize (Hv (toString i) false).
  destruct v; cbn [slotLoop]; congruence.
Qed.

Lemma propertyLoop_same props :
  Forall (fun p => same e1 e2 (snd p)) props ->
  propertyLoop e1 props = propertyLoop e2 props.
Proof.
  induction 1 as [| [k v] rest Hv _ IH]; cbn [propertyLoop]; [reflexivity |].
  specialize (Hv k false). cbn [snd] in Hv. now rewrite IH, Hv.
Qed.

Lemma fieldsLoop_same db fields :
  Forall (fun p => same e1 e2 (snd p)) fields ->
  fieldsLoop e1 db fields = fieldsLoop e2 db fields.
Proof.
  induction 1 as [| [k v] rest Hv _ IH]; cbn [fieldsLoop]; [reflexivity |].
  specialize (Hv k false). cbn [snd] in Hv. now rewrite IH, Hv.
Qed.

Lemma sizeOfOrderedValues_same collection oid db fields :
  same e1 e2 collection -> same e1 e2 oid ->
  (notNull db = true -> same e1 e2 db) ->
  Forall (fun p => same e1 e2 (snd p)) fields ->
  sizeOfOrderedValues e1 collection oid db fields
  = sizeOfOrderedValues e2 collection oid db fields.
Proof.
  intros Hc Ho Hd Hf. unfold sizeOfOrderedValues.
  rewrite (fieldsLoop_same db fields Hf), (Hc (js "$ref") false), (Ho (js "$id") false).
  destruct (notNull db); [| reflexivity].
  now rewrite (Hd eq_refl (js "$db") false).
Qed.
End LoopAgreement.

Lemma Forall_plain (A : Type) (part : A -> value) (Q : value -> Prop) (l : list A) :
  Forall (fun p => plainTree (part p) = true -> Q (part p)) l ->
  forallb (fun p => plainTree (part p)) l = true ->
  Forall (fun p => Q (part p)) l.
Proof.
  intros Hall Hplain. rewrite forallb_forall in Hplain.
  rewrite Forall_forall in *. intros p Hin. apply Hall; auto.
Qed.

(** On a tree without undefined and functions the options do not matter. *)
Lemma agreeing_all env sf1 iu1 sf2 iu2 (v : value) :
  agreeing env sf1 iu1 sf2 iu2 v.
Proof.
  unfold agreeing.
  set (e1 := fun k x a => calculateElement env k x sf1 a iu1).
  set (e2 := fun k x a => calculateElement env k x sf2 a iu2).
  induction v as [ | | b | n | s | z | d | hook elems Hhook Helems
                 | class hook own Hclass Hhook Hown | ] using value_ind;
    intros Hplain.
  all: try solve [
    split; [| split; [| split]];
    [ intros name isArray; reflexivity
    | intros name isArray; reflexivity
    | reflexivity
    | reflexivity ] ].
  - discriminate Hplain.
  - (* array *)
    cbn [plainTree] in Hplain. apply andb_true_iff in Hplain as [Hph Hpe].
    assert (Hsame : Forall (same e1 e2) elems).
    { apply (Forall_plain value (fun x => x) (same e1 e2)); [| exact Hpe].
      eapply Forall_impl; [| exact Helems]. intros x Hx Hp. apply (Hx Hp). }
    assert (Hloop : forall i a, arrayLoop e1 i elems a = arrayLoop e2 i elems a).
    { intros i a. now apply arrayLoop_same. }
    assert (Hsize : sizeOfObject e1 (VArray hook elems)
                    = sizeOfObject e2 (VArray hook elems)).
    { unfold sizeOfObject. now rewrite Hloop. }
    assert (Hswitch : forall name isArray,
      typeofSwitch env e1 name (VArray hook elems) sf1 isArray iu1
      = typeofSwitch env e2 name (VArray hook elems) sf2 isArray iu2).
    { intros name isArray. cbn [typeofSwitch]. now rewrite Hsize. }
    split; [exact Hswitch | split; [| split; [| exact Hsize]]].
    + intros name isArray. unfold e1, e2. rewrite !calculateElement_unfold.
      fold e1 e2. destruct hook as [r |]; cbn [applyToBSON].
      * apply (Hhook Hph).
      * apply Hswitch.
    + cbn [forInLoop]. now apply slotLoop_same.
  - (* object *)
    cbn [plainTree] in Hplain.
    apply andb_true_iff in Hplain as [Hplain Hpo].
    apply andb_true_iff in Hplain as [Hpc Hph].
    assert (Hloop : propertyLoop e1 own = propertyLoop e2 own).
    { apply propertyLoop_same.
      apply (Forall_plain _ snd (same e1 e2)); [| exact Hpo].
      eapply Forall_impl; [| exact Hown]. intros x Hx Hp. apply (Hx Hp). }
    assert (Hsize : sizeOfObject e1 (VObject class hook own)
                    = sizeOfObject e2 (VObject class hook own)).
    { unfold sizeOfObject. destruct hook as [r |]; cbn [applyToBSON].
      - destruct (Hhook Hph) as (_ & _ & Hr & _). now rewrite Hr.
      - cbn [forInLoop]. now rewrite Hloop. }
    assert (Hswitch : forall name isArray,
      typeofSwitch env e1 name (VObject class hook own) sf1 isArray iu1
      = typeofSwitch env e2 name (VObject class hook own) sf2 isArray iu2).
    { intros name isArray.
      destruct class as [ | | | | | len | | | | | code scope | sub_type position
        | sym | collection oid db fields | callable source f
        | pattern options | text scope ]; cbn [typeofSwitch];
        try reflexivity; try discriminate Hpc.
      - (* Plain *) now rewrite Hsize.
      - (* Code *)
        destruct (notNull scope && (0 <? keyCount scope)%nat) eqn:Hscope;
          [| reflexivity].
        assert (Hps : plainTree scope = true).
        { destruct scope; try exact Hpc. discriminate Hscope. }
        destruct (Hclass Hps) as (_ & _ & _ & Hs). now rewrite Hs.
      - (* DBRef *)
        destruct Hclass as (Hc & Ho & Hd & Hf).
        apply andb_true_iff in Hpc as [Hpc Hpf].
        apply andb_true_iff in Hpc as [Hpc Hpd].
        apply andb_true_iff in Hpc as [Hpcol Hpoid].
        f_equal. apply sizeOfOrderedValues_same.
        + apply (Hc Hpcol).
        + apply (Ho Hpoid).
        + intros Hdb. apply Hd. destruct db; try exact Hpd. discriminate Hdb.
        + apply (Forall_plain _ snd (same e1 e2)); [| exact Hpf].
          eapply Forall_impl; [| exact Hf]. intros x Hx Hp. apply (Hx Hp). }
    split; [exact Hswitch | split; [| split; [exact Hloop | exact Hsize]]].
    intros name isArray. unfold e1, e2. rewrite !calculateElement_unfold.
    fold e1 e2. destruct hook as [r |]; cbn [applyToBSON].
    + apply (Hhook Hph).
    + apply Hswitch.
  - discriminate Hplain.
Qed.

(** X4: on a tree that holds no undefined value and no function (through
    the results of [toBSON], the scopes of code values and the parts of a
    DBRef) the two options have no effect: calculateObjectSize returns the
    same size at every setting of serializeFunctions and ignoreUndefined. *)
Theorem X4_options_idle_on_plain_tree :
  forall env object sf iu sf' iu',
    plainTree object = true ->
    calculateObjectSize env object sf iu = calculateObjectSize env object sf' iu'.
Proof.
  intros env object sf iu sf' iu' Hplain. unfold calculateObjectSize.
  destruct (notNull object); [| reflexivity]. f_equal.
  apply (proj2 (proj2 (proj2 (agreeing_all env sf iu sf' iu' object Hplain)))).
Qed.

Lemma X4_options_idle_on_plain_tree_witness :
  calculateObjectSize (specImports (fun s => s))
    (document [(js "a", array [VNull; VNumber (ofZ 1)]);
               (js "c", VObject (Code (js "x") VUndefined) None [])])
    false false
  = calculateObjectSize (specImports (fun s => s))
      (document [(js "a", array [VNull; VNumber (ofZ 1)]);
                 (js "c", VObject (Code (js "x") VUndefined) None [])])
      true true.
Proof.
  apply X4_options_idle_on_plain_tree. reflexivity.
Defined.

(** ** Arrays and the documents of their indices *)

Lemma calculateElement_readSlot env name v sf isArray iu :
  calculateElement env name (readSlot v) sf isArray iu
  = calculateElement env name v sf isArray iu.
Proof. destruct v; reflexivity. Qed.

Lemma calculateElement_isArray_idle env name v sf isArray isArray' :
  calculateElement env name v sf isArray false
  = calculateElement env name v sf isArray' false.
Proof.
  rewrite !calculateElement_unfold.
  destruct (applyToBSON v); cbn [typeofSwitch]; try reflexivity.
  all: destruct isArray, isArray'; reflexivity.
Qed.

Lemma calculateElement_isArray_order env name v sf iu :
  calculateElement env name v sf false iu <= calculateElement env name v sf true iu.
Proof.
  rewrite !calculateElement_unfold.
  destruct (applyToBSON v); cbn [typeofSwitch]; try lia.
  all: pose proof (nameSize_pos name); destruct iu; cbn [orb negb]; lia.
Qed.

Lemma slotLoop_listed element i elems :
  slotLoop element i elems = propertyLoop element (listed i elems).
Proof.
  revert i. induction elems as [| v rest IH]; intros i; [reflexivity |].
  destruct v; cbn [slotLoop listed propertyLoop]; now rewrite IH.
Qed.

Lemma arrayLoop_keyed_order env sf iu i elems :
  propertyLoop (fun k x a => calculateElement env k x sf a iu) (keyed i elems)
  <= arrayLoop (fun k x a => calculateElement env k x sf a iu) i elems true.
Proof.
  revert i. induction elems as [| v rest IH]; intros i;
    cbn [arrayLoop keyed propertyLoop]; [lia |].
  specialize (IH (S i)). rewrite calculateElement_readSlot.
  pose proof (calculateElement_isArray_order env (toString i) v sf iu). lia.
Qed.

Lemma arrayLoop_keyed env sf i elems :
  arrayLoop (fun k x a => calculateElement env k x sf a false) i elems true
  = propertyLoop (fun k x a => calculateElement env k x sf a false) (keyed i elems).
Proof.
  revert i. induction elems as [| v rest IH]; intros i;
    cbn [arrayLoop keyed propertyLoop]; [reflexivity |].
  now rewrite IH, calculateElement_readSlot,
    (calculateElement_isArray_idle env (toString i) v sf true false).
Qed.

(** X5: with ignoreUndefined unset an array has exactly the size of the
    document that holds, under each index, what reading the array there
    gives (undefined for a hole), [{ "0": v0, "1": v1, ... }]; with the
    option set the array is at least as large as that document, since its
    undefined slots and its holes are kept; and an array that the [toBSON]
    of a top-level object returns goes through the for-in loop, which skips
    the holes: at either setting it is sized as the document of the slots
    that hold an element. *)
Theorem X5_array_as_indexed_document :
  (forall env elems sf,
     calculateObjectSize env (array elems) sf false
     = calculateObjectSize env (document (keyed 0 elems)) sf false)
  /\ (forall env elems sf iu,
     exists as_document as_array,
       calculateObjectSize env (document (keyed 0 elems)) sf iu = Returns as_document
       /\ calculateObjectSize env (array elems) sf iu = Returns as_array
       /\ as_document <= as_array)
  /\ (forall env class own hook elems sf iu,
     calculateObjectSize env (VObject class (Some (VArray hook elems)) own) sf iu
     = calculateObjectSize env (document (listed 0 elems)) sf iu).
Proof.
  split; [| split].
  - intros env elems sf. unfold calculateObjectSize, array, document.
    cbn [notNull sizeOfObject applyToBSON forInLoop].
    now rewrite arrayLoop_keyed.
  - intros env elems sf iu. unfold calculateObjectSize, array, document.
    cbn [notNull sizeOfObject applyToBSON forInLoop].
    do 2 eexists. split; [reflexivity | split; [reflexivity |]].
    pose proof (arrayLoop_keyed_order env sf iu 0 elems). lia.
  - intros env class own hook elems sf iu. unfold calculateObjectSize, document.
    cbn [notNull sizeOfObject applyToBSON forInLoop].
    now rewrite slotLoop_listed.
Qed.

(** ** Names, order and concatenation of fields *)

(** X6: the size of an element depends on its name only through the UTF-8
    length of the name: an element that is left out adds 0 under every name,
    and for any other element a change of name changes the size by the
    difference of the two lengths. *)
Theorem X6_rename :
  forall env name name' v sf isArray iu,
    calculateElement env name v sf isArray iu
    + (if dropped v sf isArray iu then 0 else Buffer_byteLength name')
    = calculateElement env name' v sf isArray iu
      + (if dropped v sf isArray iu then 0 else Buffer_byteLength name).
Proof.
  intros env name name' v sf isArray iu.
  rewrite !calculateElement_unfold. unfold dropped.
  destruct (applyToBSON v) as [ | | b | n | s | z | d | hook elems | class hook own | ];
    cbn [typeofSwitch]; unfold nameSize; try lia.
  - destruct isArray, iu; cbn [orb negb andb]; lia.
  - repeat match goal with |- context [if ?c then _ else _] => destruct c end; lia.
  - destruct class as [ | | | | | len | | | | | code scope | sub_type position
        | sym | collection oid db fields | callable source f
        | pattern options | text scope ]; cbn [typeofSwitch];
      unfold regexpSize, nameSize; try lia.
    + destruct (notNull scope && (0 <? keyCount scope)%nat); lia.
    + destruct (sub_type =? SUBTYPE_BYTE_ARRAY env); lia.
    + destruct callable; lia.
    + destruct sf; cbn [andb negb]; [| lia].
      destruct (notNull scope && (0 <? keyCount scope)%nat); lia.
  - destruct isArray, iu; cbn [orb negb andb]; lia.
Qed.

Lemma propertyLoop_app element p q :
  propertyLoop element (p ++ q) = propertyLoop element p + propertyLoop element q.
Proof.
  induction p as [| [k v] rest IH]; cbn [app propertyLoop]; [lia |].
  rewrite IH. lia.
Qed.

Lemma propertyLoop_Permutation element p q :
  Permutation p q -> propertyLoop element p = propertyLoop element q.
Proof.
  induction 1 as [| [k v] p q _ IH | [k v] [k' v'] p | p q r _ IH1 _ IH2];
    cbn [propertyLoop]; lia.
Qed.

(** X7: the size of a document whose fields are those of two documents, one
    after the other, is the sum of the two sizes less the framing of one
    document (5 bytes). *)
Theorem X7_concatenation :
  forall env p q sf iu,
    exists first second,
      calculateObjectSize env (document p) sf iu = Returns first
      /\ calculateObjectSize env (document q) sf iu = Returns second
      /\ calculateObjectSize env (document (p ++ q)) sf iu
         = Returns (first + second - 5).
Proof.
  intros env p q sf iu. unfold calculateObjectSize, document.
  cbn [notNull sizeOfObject applyToBSON forInLoop].
  do 2 eexists. split; [reflexivity | split; [reflexivity |]].
  rewrite propertyLoop_app. f_equal. lia.
Qed.

(** X8: the size of a document does not depend on the order of its
    fields. *)
Theorem X8_field_order :
  forall env p q sf iu,
    Permutation p q ->
    calculateObjectSize env (document p) sf iu
    = calculateObjectSize env (document q) sf iu.
Proof.
  intros env p q sf iu Hperm. unfold calculateObjectSize, document.
  cbn [notNull sizeOfObject applyToBSON forInLoop].
  now rewrite (propertyLoop_Permutation _ p q Hperm).
Qed.

Lemma X8_field_order_witness :
  calculateObjectSize (specImports (fun s => s))
    (document [(js "a", VNull); (js "long", VString (js "x"))]) false false
  = calculateObjectSize (specImports (fun s => s))
      (document [(js "long", VString (js "x")); (js "a", VNull)]) false false.
Proof.
  apply X8_field_order. apply perm_swap.
Defined.

(** X9: a document or an array without [toBSON] that is the value of a field
    adds its own size, as calculateObjectSize returns it, and besides it the
    tag byte, the key and the terminator of the key: placed last in a
    document under the key [key], it adds utf8(key) + 2 + its size. *)
Theorem X9_nested_container :
  (forall env props key inner sf iu,
     exists outer nested_size,
       calculateObjectSize env (document props) sf iu = Returns outer
       /\ calculateObjectSize env (document inner) sf iu = Returns nested_size
       /\ calculateObjectSize env (document (props ++ [(key, document inner)])) sf iu
          = Returns (outer + (Buffer_byteLength key + 2 + nested_size)))
  /\ (forall env props key elems sf iu,
     exists outer nested_size,
       calculateObjectSize env (document props) sf iu = Returns outer
       /\ calculateObjectSize env (array elems) sf iu = Returns nested_size
       /\ calculateObjectSize env (document (props ++ [(key, array elems)])) sf iu
          = Returns (outer + (Buffer_byteLength key + 2 + nested_size))).
Proof.
  split; intros env props key inner sf iu; unfold calculateObjectSize, document, array;
    cbn [notNull]; do 2 eexists;
    (split; [reflexivity | split; [reflexivity |]]); f_equal;
    unfold sizeOfObject at 1; cbn [applyToBSON forInLoop];
    rewrite propertyLoop_app; cbn [propertyLoop];
    rewrite calculateElement_unfold; cbn [applyToBSON typeofSwitch];
    unfold sizeOfObject at 2; cbn [applyToBSON forInLoop]; unfold nameSize; lia.
Qed.

(** ** DBRef, functions and code *)

(** X10: a DBRef whose extra fields have distinct keys is sized as the tag
    byte, the name and the document
    [Object.assign({ $ref: collection, $id: oid }, fields)] with [$db] set
    to [db] when [db] is not null: a field named [$ref] or [$id] replaces the
    collection or the id, and each key is counted once. *)
Theorem X10_dbref_as_document :
  forall env name collection oid db fields own sf isArray iu,
    NoDup (map fst fields) ->
    exists size,
      calculateObjectSize env (document (ordered_values collection oid db fields)) sf iu
        = Returns size
      /\ calculateElement env name (VObject (DBRef collection oid db fields) None own)
           sf isArray iu = Buffer_byteLength name + 1 + 1 + size.
Proof.
  intros env name collection oid db fields own sf isArray iu Hfields.
  destruct (calculateElement_DBRef env name collection oid db fields own sf isArray iu
              Hfields) as [size [Hsize Helement]].
  exists size. split; [exact Hsize |]. rewrite Helement. unfold nameSize. lia.
Qed.

Lemma X10_dbref_as_document_witness :
  exists size,
    calculateObjectSize (specImports (fun s => s))
      (document (ordered_values (VString (js "users")) (VObject ObjectId None [])
                   (VString (js "app")) [(js "$id", VNumber (ofZ 7)); (js "x", VNull)]))
      false false = Returns size
    /\ calculateElement (specImports (fun s => s)) (js "ref")
         (VObject (DBRef (VString (js "users")) (VObject ObjectId None [])
                     (VString (js "app")) [(js "$id", VNumber (ofZ 7)); (js "x", VNull)])
            None [])
         false false false = Buffer_byteLength (js "ref") + 1 + 1 + size.
Proof.
  apply X10_dbref_as_document.
  repeat constructor; simpl; intuition discriminate.
Defined.

(** X11: with serializeFunctions set, a function is sized exactly as the
    code value that holds its normalised text and its scope. *)
Theorem X11_function_as_code :
  forall env name text scope own own' isArray iu,
    calculateElement env name (VObject (Function text scope) None own)
      true isArray iu
    = calculateElement env name
        (VObject (Code (normalizedFunctionString env text) scope) None own')
        true isArray iu.
Proof.
  intros env name text scope own own' isArray iu.
  rewrite !calculateElement_unfold. cbn [applyToBSON typeofSwitch andb].
  destruct (notNull scope && (0 <? keyCount scope)%nat); reflexivity.
Qed.

(** X12: a code value whose scope is null, undefined or without keys is sized
    as a code value without scope, and so is a serialised function.  The
    keys counted are the own enumerable properties of the scope itself, not
    those of what its [toBSON] returns: a scope whose [toBSON] is a method of
    its prototype and that has no property of its own has no key, a scope
    whose [toBSON] is a property of its own has one and is sized, as what
    its [toBSON] returns. *)
Theorem X12_empty_scope :
  (forall env name code text scope own sf isArray iu,
     notNull scope = false \/ keyCount scope = 0%nat ->
     calculateElement env name (VObject (Code code scope) None own) sf isArray iu
     = Buffer_byteLength name + 1 + 1 + 4 + Buffer_byteLength code + 1
     /\ calculateElement env name (VObject (Function text scope) None own)
          true isArray iu
        = Buffer_byteLength name + 1 + 1 + 4
          + Buffer_byteLength (normalizedFunctionString env text) + 1)
  /\ (forall env name code r f own sf isArray iu,
     keyCount (VObject Plain (Some r) []) = 0%nat
     /\ keyCount (VObject Plain (Some r) [(js "toBSON", f)]) = 1%nat
     /\ calculateElement env name
          (VObject (Code code (VObject Plain (Some r) [(js "toBSON", f)])) None own)
          sf isArray iu
        = Buffer_byteLength name + 1 + 1 + 4 + 4 + Buffer_byteLength code + 1
          + (4 + 1 + forInLoop (fun k v a => calculateElement env k v sf a iu) r)).
Proof.
  split.
  - intros env name code text scope own sf isArray iu Hscope.
    assert (Hcond : notNull scope && (0 <? keyCount scope)%nat = false).
    { destruct Hscope as [-> | ->]; [reflexivity | apply andb_false_r]. }
    rewrite !calculateElement_unfold. cbn [applyToBSON typeofSwitch andb].
    rewrite Hcond. unfold nameSize. split; lia.
  - intros env name code r f own sf isArray iu.
    split; [reflexivity | split; [reflexivity |]].
    rewrite calculateElement_unfold.
    cbn [applyToBSON typeofSwitch notNull keyCount List.length Nat.ltb Nat.leb andb].
    unfold nameSize, sizeOfObject. cbn [applyToBSON]. lia.
Qed.

Lemma X12_empty_scope_witness :
  calculateElement (specImports (fun s => s)) (js "c")
    (VObject (Code (js "x") (VObject Plain (Some (document [(js "k", VNull)])) []))
       None []) false false false
  = Buffer_byteLength (js "c") + 1 + 1 + 4 + Buffer_byteLength (js "x") + 1
  /\ calculateElement (specImports (fun s => s)) (js "c")
       (VObject (Function (js "f") (VObject Plain (Some (document [(js "k", VNull)])) []))
          None []) true false false
     = Buffer_byteLength (js "c") + 1 + 1 + 4
       + Buffer_byteLength (normalizedFunctionString (specImports (fun s => s)) (js "f"))
       + 1.
Proof.
  apply (proj1 X12_empty_scope). right. reflexivity.
Defined.

(** X13: a BSONSymbol and a code value without scope are sized exactly as the
    string element that holds their text; a view of bytes (ArrayBuffer or
    typed array) is sized as the Binary of the same length whose sub-type is
    not the legacy one. *)
Theorem X13_same_size_as :
  (forall env name s own sf isArray iu,
     calculateElement env name (VObject (BSONSymbol s) None own) sf isArray iu
     = calculateElement env name (VString s) sf isArray iu)
  /\ (forall env name code own sf isArray iu,
     calculateElement env name (VObject (Code code VUndefined) None own) sf isArray iu
     = calculateElement env name (VString code) sf isArray iu)
  /\ (forall env name len sub_type own own' sf isArray iu,
     sub_type <> SUBTYPE_BYTE_ARRAY env ->
     calculateElement env name (VObject (Bytes len) None own) sf isArray iu
     = calculateElement env name (VObject (Binary sub_type len) None own')
         sf isArray iu).
Proof.
  split; [| split].
  - intros. rewrite !calculateElement_unfold. cbn [applyToBSON typeofSwitch].
    unfold nameSize. lia.
  - intros. rewrite !calculateElement_unfold.
    cbn [applyToBSON typeofSwitch notNull andb]. unfold nameSize. lia.
  - intros env name len sub_type own own' sf isArray iu Hsub.
    rewrite !calculateElement_unfold. cbn [applyToBSON typeofSwitch].
    apply Z.eqb_neq in Hsub. rewrite Hsub. lia.
Qed.

Lemma X13_same_size_as_witness :
  calculateElement (specImports (fun s => s)) (js "b")
    (VObject (Bytes 12) None []) false false false
  = calculateElement (specImports (fun s => s)) (js "b")
      (VObject (Binary 0 12) None []) false false false.
Proof.
  apply (proj2 (proj2 X13_same_size_as)). simpl. lia.
Defined.

(** ** Whole numbers *)

Lemma isWhole_ofZ (z : Z) : isWhole (ofZ z) = true.
Proof.
  unfold isWhole, ofZ, Math_floor, strictEquals.
  rewrite Qfloor_Z. apply Qeq_bool_iff. reflexivity.
Qed.

Lemma lessEq_ofZ (a b : Z) : lessEq (ofZ a) (ofZ b) = (a <=? b).
Proof.
  unfold lessEq, ofZ, Qle_bool, inject_Z. cbn [Qnum Qden].
  now rewrite !Z.mul_1_r.
Qed.

(** X14: where the 32-bit range lies inside the safe-integer range, a whole
    number [z] takes the four-byte form exactly when
    BSON_INT32_MIN <= z <= BSON_INT32_MAX, and the eight-byte form
    otherwise. *)
Theorem X14_integer_width :
  forall env name z sf isArray iu,
    JS_INT_MIN env <= BSON_INT32_MIN env ->
    BSON_INT32_MAX env <= JS_INT_MAX env ->
    calculateElement env name (VNumber (ofZ z)) sf isArray iu
    = nameSize name
      + (if (BSON_INT32_MIN env <=? z) && (z <=? BSON_INT32_MAX env)
         then 4 + 1 else 8 + 1).
Proof.
  intros env name z sf isArray iu Hmin Hmax.
  rewrite calculateElement_unfold. cbn [applyToBSON typeofSwitch].
  fold (isWhole (ofZ z)). rewrite isWhole_ofZ. unfold greaterEq.
  rewrite !lessEq_ofZ. cbn [andb].
  destruct (BSON_INT32_MIN env <=? z) eqn:Hlo;
    destruct (z <=? BSON_INT32_MAX env) eqn:Hhi; cbn [andb];
    repeat match goal with |- context [if ?c then _ else _] =>
      destruct c eqn:? end; try reflexivity.
  all: exfalso;
    repeat match goal with
    | H : (_ <=? _) = true |- _ => apply Z.leb_le in H
    | H : (_ <=? _) = false |- _ => apply Z.leb_gt in H
    | H : (_ && _) = false |- _ => apply andb_false_iff in H as [H | H]
    end; lia.
Qed.

Lemma X14_integer_width_witness :
  calculateElement (specImports (fun s => s)) (js "n")
    (VNumber (ofZ (-2147483649))) false false false
  = nameSize (js "n")
    + (if (BSON_INT32_MIN (specImports (fun s => s)) <=? -2147483649)
          && (-2147483649 <=? BSON_INT32_MAX (specImports (fun s => s)))
       then 4 + 1 else 8 + 1).
Proof.
  apply X14_integer_width; simpl; lia.
Defined.

(** X15: the four-byte form is chosen only for a number that fits: if a
    number element has the size of the four-byte form, the number is finite
    and equal to an integer between BSON_INT32_MIN and BSON_INT32_MAX (and
    inside the safe-integer range); NaN, the infinities and the fractions
    never take it. *)
Theorem X15_four_bytes_only_for_int32 :
  forall env name n sf isArray iu,
    calculateElement env name (VNumber n) sf isArray iu = nameSize name + (4 + 1) ->
    exists q z,
      n = Finite q
      /\ Qeq q (inject_Z z)
      /\ BSON_INT32_MIN env <= z <= BSON_INT32_MAX env
      /\ JS_INT_MIN env <= z <= JS_INT_MAX env.
Proof.
  intros env name n sf isArray iu Hsize.
  rewrite calculateElement_unfold in Hsize. cbn [applyToBSON typeofSwitch] in Hsize.
  destruct (strictEquals (Math_floor n) n
            && greaterEq n (ofZ (JS_INT_MIN env))
            && lessEq n (ofZ (JS_INT_MAX env))) eqn:Hsafe; [| lia].
  destruct (greaterEq n (ofZ (BSON_INT32_MIN env))
            && lessEq n (ofZ (BSON_INT32_MAX env))) eqn:H32; [| lia].
  apply andb_true_iff in Hsafe as [Hsafe Hmax].
  apply andb_true_iff in Hsafe as [Hwhole Hmin].
  apply andb_true_iff in H32 as [Hlo Hhi].
  destruct n as [q | | |]; try discriminate.
  cbn [Math_floor strictEquals] in Hwhole. apply Qeq_bool_iff in Hwhole.
  exists q, (Qfloor q). split; [reflexivity |].
  split; [symmetry; exact Hwhole |].
  unfold greaterEq, lessEq, ofZ in *.
  apply Qle_bool_iff in Hmin, Hmax, Hlo, Hhi.
  rewrite <- Hwhole in Hmin, Hmax, Hlo, Hhi.
  rewrite <- Zle_Qle in Hmin, Hmax, Hlo, Hhi. lia.
Qed.

Lemma X15_four_bytes_only_for_int32_witness :
  exists q z,
    ofZ 7 = Finite q
    /\ Qeq q (inject_Z z)
    /\ BSON_INT32_MIN (specImports (fun s => s)) <= z
       <= BSON_INT32_MAX (specImports (fun s => s))
    /\ JS_INT_MIN (specImports (fun s => s)) <= z
       <= JS_INT_MAX (specImports (fun s => s)).
Proof.
  apply (X15_four_bytes_only_for_int32 (specImports (fun s => s)) (js "n")
           (ofZ 7) false false false).
  reflexivity.
Defined.

(** ** ensureBuffer on its own result *)

(** X16: what ensureBuffer returns lies inside its ArrayBuffer, and
    ensureBuffer returns it unchanged when it is handed it again: on a
    Buffer the function is the identity. *)
Theorem X16_ensureBuffer_idempotent :
  forall x b,
    EnsureBuffer.ensureBuffer x = EnsureBuffer.Return b ->
    EnsureBuffer.inBounds b
    /\ EnsureBuffer.ensureBuffer (EnsureBuffer.IsView b) = EnsureBuffer.Return b.
Proof.
  intros x b Hreturn.
  assert (Hshape : EnsureBuffer.inBounds b
                   /\ EnsureBuffer.class b = EnsureBuffer.BufferClass).
  { unfold EnsureBuffer.inBounds.
    destruct x as [v | ab |]; cbn [EnsureBuffer.ensureBuffer] in Hreturn;
      unfold EnsureBuffer.Buffer_from in Hreturn; [| | discriminate].
    - destruct (_ <=? _)%N eqn:Hle in Hreturn; [| discriminate].
      injection Hreturn as <-. cbn. split; [now apply N.leb_le | reflexivity].
    - destruct (_ <=? _)%N eqn:Hle in Hreturn; [| discriminate].
      injection Hreturn as <-. cbn. split; [lia | reflexivity]. }
  destruct Hshape as [Hbounds Hclass].
  split; [exact Hbounds |].
  unfold EnsureBuffer.inBounds in Hbounds. apply N.leb_le in Hbounds.
  cbn [EnsureBuffer.ensureBuffer]. unfold EnsureBuffer.Buffer_from.
  rewrite Hbounds. destruct b as [c ab off len]. cbn in Hclass. now subst c.
Qed.

Lemma X16_ensureBuffer_idempotent_witness :
  EnsureBuffer.inBounds
    {| EnsureBuffer.class := EnsureBuffer.BufferClass;
       EnsureBuffer.buffer := {| EnsureBuffer.address := 3; EnsureBuffer.size := 32 |};
       EnsureBuffer.byteOffset := 0;
       EnsureBuffer.byteLength := 32 |}
  /\ EnsureBuffer.ensureBuffer
       (EnsureBuffer.IsView
          {| EnsureBuffer.class := EnsureBuffer.BufferClass;
             EnsureBuffer.buffer := {| EnsureBuffer.address := 3; EnsureBuffer.size := 32 |};
             EnsureBuffer.byteOffset := 0;
             EnsureBuffer.byteLength := 32 |})
     = EnsureBuffer.Return
         {| EnsureBuffer.class := EnsureBuffer.BufferClass;
            EnsureBuffer.buffer := {| EnsureBuffer.address := 3; EnsureBuffer.size := 32 |};
            EnsureBuffer.byteOffset := 0;
            EnsureBuffer.byteLength := 32 |}.
Proof.
  apply (X16_ensureBuffer_idempotent
           (EnsureBuffer.IsArrayBuffer
              {| EnsureBuffer.address := 3; EnsureBuffer.size := 32 |})).
  reflexivity.
Defined.

(** ** The toBSON of a result *)

(** X17: an element whose [toBSON] returns a plain object or an array is
    sized as that container embedded under the name, the size of the
    container being what calculateObjectSize returns for it - so that the
    [toBSON] of a returned plain object is invoked as well; at the top
    level the [toBSON] of the result is not invoked, the fields of the
    result itself are sized. *)
Theorem X17_toBSON_of_result :
  (forall env name v r sf isArray iu,
     toBSON_of v = Some r ->
     (exists hook own, r = VObject Plain hook own)
     \/ (exists hook elems, r = VArray hook elems) ->
     exists size,
       calculateObjectSize env r sf iu = Returns size
       /\ calculateElement env name v sf isArray iu
          = Buffer_byteLength name + 2 + size)
  /\ (forall env class own class' hook' own' sf iu,
     calculateObjectSize env (VObject class (Some (VObject class' hook' own')) own) sf iu
     = calculateObjectSize env (VObject class' None own') sf iu).
Proof.
  split; [| reflexivity].
  intros env name v r sf isArray iu Hhook Hshape.
  rewrite calculateElement_unfold, (applyToBSON_hook v r Hhook).
  unfold calculateObjectSize.
  destruct Hshape as [[hook [own ->]] | [hook [elems ->]]];
    cbn [notNull typeofSwitch]; eexists; (split; [reflexivity |]);
    unfold nameSize; lia.
Qed.

Lemma X17_toBSON_of_result_witness :
  exists size,
    calculateObjectSize (specImports (fun s => s))
      (VObject Plain (Some (VString (js "ab"))) [(js "x", VNull)]) false false
      = Returns size
    /\ calculateElement (specImports (fun s => s)) (js "k")
         (VObject Plain
            (Some (VObject Plain (Some (VString (js "ab"))) [(js "x", VNull)]))
            [])
         false false false
       = Buffer_byteLength (js "k") + 2 + size.
Proof.
  apply (proj1 X17_toBSON_of_result).
  - reflexivity.
  - left. do 2 eexists. reflexivity.
Defined.

(** X18: a code value with a scope that is not null and has a key is sized as
    the code value without scope, 4 further bytes and the size
    calculateObjectSize returns for the scope. *)
Theorem X18_code_with_scope :
  forall env name code scope own sf isArray iu,
    notNull scope = true -> (0 < keyCount scope)%nat ->
    exists size,
      calculateObjectSize env scope sf iu = Returns size
      /\ calculateElement env name (VObject (Code code scope) None own) sf isArray iu
         = calculateElement env name (VObject (Code code VUndefined) None own)
             sf isArray iu
           + 4 + size.
Proof.
  intros env name code scope own sf isArray iu Hscope Hkeys.
  unfold calculateObjectSize. rewrite Hscope.
  eexists. split; [reflexivity |].
  rewrite !calculateElement_unfold. cbn [applyToBSON typeofSwitch notNull andb].
  apply Nat.ltb_lt in Hkeys. rewrite Hscope, Hkeys. cbn [andb]. lia.
Qed.

Lemma X18_code_with_scope_witness :
  exists size,
    calculateObjectSize (specImports (fun s => s))
      (document [(js "x", VNumber (ofZ 1))]) false false = Returns size
    /\ calculateElement (specImports (fun s => s)) (js "c")
         (VObject (Code (js "return x") (document [(js "x", VNumber (ofZ 1))])) None [])
         false false false
       = calculateElement (specImports (fun s => s)) (js "c")
           (VObject (Code (js "return x") VUndefined) None []) false false false
         + 4 + size.
Proof.
  apply X18_code_with_scope; [reflexivity | simpl; lia].
Defined.

(** ** The host returns the sizes *)

Section HostLoops.
Variable element : jsstring -> value -> bool -> Z.
Variable hostElement : jsstring -> value -> bool -> result.

Lemma host_arrayLoop elems : forall total i,
  (forall x name, In x elems ->
     hostElement name (readSlot x) true = Returns (element name x true)) ->
  Host.arrayLoop hostElement total i elems
  = Returns (total + arrayLoop element i elems true).
Proof.
  induction elems as [| v rest IH]; intros total i Hall; cbn [Host.arrayLoop arrayLoop].
  - f_equal. lia.
  - rewrite (Hall v (toString i) (or_introl eq_refl)). cbn [Host.bind].
    rewrite IH by (intros x name Hin; apply Hall; now right).
    f_equal. lia.
Qed.

Lemma host_propertyLoop props : forall total,
  (forall p name, In p props ->
     hostElement name (snd p) false = Returns (element name (snd p) false)) ->
  Host.propertyLoop hostElement total props
  = Returns (total + propertyLoop element props).
Proof.
  induction props as [| [k v] rest IH]; intros total Hall;
    cbn [Host.propertyLoop propertyLoop].
  - f_equal. lia.
  - pose proof (Hall (k, v) k (or_introl eq_refl)) as Hhead. cbn [snd] in Hhead.
    rewrite Hhead. cbn [Host.bind].
    rewrite IH by (intros p name Hin; apply Hall; now right).
    f_equal. lia.
Qed.

Lemma host_slotLoop elems : forall total i,
  (forall x name, In x elems -> isPresent x = true ->
     hostElement name x false = Returns (element name x false)) ->
  Host.slotLoop hostElement total i elems
  = Returns (total + slotLoop element i elems).
Proof.
  induction elems as [| v rest IH]; intros total i Hall.
  - cbn [Host.slotLoop slotLoop]. f_equal. lia.
  - assert (Hrest : forall t j, Host.slotLoop hostElement t j rest
                                = Returns (t + slotLoop element j rest)).
    { intros t j. apply IH. intros x name Hin. apply Hall. now right. }
    destruct v; cbn [Host.slotLoop slotLoop];
      try (rewrite (Hall _ (toString i) (or_introl eq_refl) eq_refl);
           cbn [Host.bind]; rewrite Hrest; f_equal; lia).
    apply Hrest.
Qed.

Lemma host_stringLoop s : forall total i,
  (forall name u,
     hostElement name (VString [u]) false = Returns (stringSize name [u])) ->
  Host.stringLoop hostElement total i s = Returns (total + stringLoop i s).
Proof.
  induction s as [| u rest IH]; intros total i Hchar;
    cbn [Host.stringLoop stringLoop].
  - f_equal. lia.
  - rewrite Hchar. cbn [Host.bind]. rewrite IH by exact Hchar. f_equal. lia.
Qed.
End HostLoops.

Lemma host_calculateElement_unfold env stack name v sf isArray iu :
  Host.calculateElement env (S stack) name v sf isArray iu =
  match Host.toBSONStep v with
  | Host.Raise e => Throws e
  | Host.Value r =>
      Host.typeofSwitch env (fun o => Host.calculateObjectSize env stack o sf iu)
        name r sf isArray iu
  end.
Proof. reflexivity. Qed.

Lemma toBSONStep_consistent v :
  Host.consistent v = true -> Host.toBSONStep v = Host.Value (applyToBSON v).
Proof.
  unfold Host.consistent, Host.toBSONStep.
  destruct v as [ | | b | n | s | z | d | hook elems | class hook own | ];
    try reflexivity.
  - destruct hook; reflexivity.
  - cbn [toBSON_of applyToBSON].
    destruct (Host.readToBSON (VObject class hook own)) as [ | | [r |]] eqn:Hread;
      destruct hook as [r' |]; try discriminate; intros _; try reflexivity.
    cbn [Host.readToBSON] in Hread.
    destruct (getProperty (js "toBSON") own) as [p |].
    + destruct (Host.truthy p); [| discriminate].
      destruct (Host.isFunction p); [| discriminate]. now inversion Hread.
    + now inversion Hread.
Qed.

Lemma consistent_array hook elems : Host.consistent (VArray hook elems) = true.
Proof. destruct hook; reflexivity. Qed.

(** A value without parts is sized by the host as soon as one call fits. *)
Lemma host_leaf env stack name v sf isArray iu :
  Host.toBSONStep v = Host.Value v ->
  (forall objectSize,
     Host.typeofSwitch env objectSize name v sf isArray iu
     = Returns (leafCase env name v sf isArray iu)) ->
  Host.calculateElement env (S stack) name v sf isArray iu
  = Returns (leafCase env name v sf isArray iu).
Proof.
  intros Hstep Hleaf. rewrite host_calculateElement_unfold, Hstep. apply Hleaf.
Qed.

Lemma host_character env stack name u sf iu :
  Host.calculateElement env (S stack) name (VString [u]) sf false iu
  = Returns (stringSize name [u]).
Proof. reflexivity. Qed.

Lemma host_undefined env stack name sf isArray iu :
  Host.calculateElement env (S stack) name VUndefined sf isArray iu
  = Returns (calculateElement env name VHole sf isArray iu).
Proof. reflexivity. Qed.

Lemma fold_height_In (A : Type) (part : A -> value) (x : A) (l : list A) :
  In x l ->
  (Host.height (part x)
   <= fold_right (fun p h => Nat.max (Host.height (part p)) h) O l)%nat.
Proof.
  induction l as [| y rest IH]; intros Hin; [destruct Hin |].
  cbn [fold_right]. destruct Hin as [-> | Hin]; [lia |].
  specialize (IH Hin). lia.
Qed.

Lemma distinctKeys_NoDup props :
  distinctKeys props = true -> NoDup (map fst props).
Proof.
  induction props as [| [k v] rest IH]; cbn [distinctKeys map fst]; intros H.
  - constructor.
  - apply andb_true_iff in H as [Hnew Hrest].
    constructor; [| now apply IH].
    intros Hin. apply hasKey_In in Hin. rewrite Hin in Hnew. discriminate.
Qed.

Lemma setProperty_In key v target p :
  In p (setProperty key v target) -> snd p = v \/ In p target.
Proof.
  induction target as [| [k x] rest IH]; cbn [setProperty].
  - intros [<- | []]. now left.
  - destruct (sameKey k key).
    + intros [<- | Hin]; [now left | right; now right].
    + intros [<- | Hin]; [right; now left |].
      destruct (IH Hin) as [Hv | Hrest]; [now left | right; now right].
Qed.

Lemma assign_In source : forall target p,
  In p (assign target source) ->
  In p target \/ In (snd p) (map snd source).
Proof.
  induction source as [| [k v] rest IH]; intros target p Hin; [now left |].
  change (assign target ((k, v) :: rest))
    with (assign (setProperty k v target) rest) in Hin.
  destruct (IH _ _ Hin) as [Hset | Hrest].
  - destruct (setProperty_In _ _ _ _ Hset) as [Hv | Htarget].
    + right. left. cbn [snd]. now symmetry.
    + now left.
  - right. right. exact Hrest.
Qed.

Lemma ordered_values_In collection oid db fields p :
  In p (ordered_values collection oid db fields) ->
  snd p = collection \/ snd p = oid \/ snd p = db \/ In (snd p) (map snd fields).
Proof.
  unfold ordered_values. intros Hin.
  assert (Hassign : forall q,
    In q (assign [(js "$ref", collection); (js "$id", oid)] fields) ->
    snd q = collection \/ snd q = oid \/ snd q = db \/ In (snd q) (map snd fields)).
  { intros q Hq. destruct (assign_In _ _ _ Hq) as [[<- | [<- | []]] | Hf]; auto. }
  destruct (notNull db); [| now apply Hassign].
  destruct (setProperty_In _ _ _ _ Hin) as [Hv | Hq]; [auto | now apply Hassign].
Qed.

Lemma readSlot_cases (x : value) : readSlot x = x \/ x = VHole.
Proof. destruct x; auto. Qed.

Lemma height_pos (v : value) : (1 <= Host.height v)%nat.
Proof. destruct v; cbn [Host.height]; lia. Qed.

(** On a well-behaved value the host returns the sizes above, when its stack
    holds twice the height of the value. *)
Lemma hosted_all env sf iu (v : value) : hosted env sf iu v.
Proof.
  unfold hosted.
  set (e := fun k x a => calculateElement env k x sf a iu).
  induction v as [ | | b | n | s | z | d | hook elems Hhook Helems
                 | class hook own Hclass Hhook Hown | ] using value_ind;
    intros Hwell.
  all: try solve [
    split; [| split; [| split]];
    [ intros stack name isArray Hs; reflexivity
    | intros stack name isArray Hs; destruct stack as [| below];
      [cbn [Host.height] in Hs; lia | reflexivity]
    | intros stack total Hs; cbn [Host.forInLoop forInLoop]; f_equal; lia
    | intros stack Hobject Hs;
      first [ discriminate Hobject
            | destruct stack as [| below];
              [cbn [Host.height] in Hs; lia | reflexivity] ] ] ].
  - (* string *)
    split; [| split; [| split]].
    + intros stack name isArray Hs. reflexivity.
    + intros stack name isArray Hs. destruct stack as [| below];
        [cbn [Host.height] in Hs; lia | reflexivity].
    + intros stack total Hs. cbn [Host.height] in Hs.
      destruct stack as [| below]; [lia |].
      cbn [Host.forInLoop forInLoop]. apply host_stringLoop.
      intros name u. apply host_character.
    + intros stack _ Hs. cbn [Host.height] in Hs.
      destruct stack as [| [| below]]; [lia | lia |].
      cbn [Host.calculateObjectSize Host.objectBody].
      change (Host.toBSONStep (VString s)) with (Host.Value (VString s)).
      cbn [Host.forInLoop]. unfold sizeOfObject. cbn [applyToBSON forInLoop].
      apply host_stringLoop. intros name u. apply host_character.
  - (* array *)
    cbn [Host.wellBehaved] in Hwell. apply andb_true_iff in Hwell as [Hwh Hwe].
    rewrite forallb_forall in Hwe. rewrite Forall_forall in Helems.
    assert (Helem : forall x, In x elems ->
              (S (Host.height x) <= Host.height (VArray hook elems))%nat).
    { intros x Hin. cbn [Host.height].
      pose proof (fold_height_In value (fun y => y) x elems Hin) as Hle.
      cbv beta in Hle. lia. }
    assert (Hresult : forall r, hook = Some r ->
              (S (Host.height r) <= Host.height (VArray hook elems))%nat).
    { intros r ->. cbn [Host.height]. lia. }
    remember (Host.height (VArray hook elems)) as h eqn:Hh.
    assert (Hobject : forall stack,
      (2 * h <= stack)%nat ->
      Host.calculateObjectSize env stack (VArray hook elems) sf iu
      = Returns (sizeOfObject e (VArray hook elems))).
    { intros stack Hs. destruct stack as [| below].
      { pose proof (height_pos (VArray hook elems)). lia. }
      cbn [Host.calculateObjectSize Host.objectBody]. unfold sizeOfObject.
      apply host_arrayLoop. intros x name Hin. specialize (Helem x Hin).
      destruct (readSlot_cases x) as [-> | ->].
      - apply (Helems x Hin (Hwe x Hin)). lia.
      - cbn [readSlot]. cbn [Host.height] in Helem.
        destruct below as [| below']; [lia |]. apply host_undefined. }
    assert (Hswitch : forall stack name isArray,
      (2 * h <= stack)%nat ->
      Host.typeofSwitch env (fun o => Host.calculateObjectSize env stack o sf iu)
        name (VArray hook elems) sf isArray iu
      = Returns (typeofSwitch env e name (VArray hook elems) sf isArray iu)).
    { intros stack name isArray Hs. cbn [Host.typeofSwitch typeofSwitch].
      rewrite (Hobject stack Hs). reflexivity. }
    split; [exact Hswitch | split; [| split]].
    + intros stack name isArray Hs. destruct stack as [| below]; [lia |].
      rewrite host_calculateElement_unfold,
        (toBSONStep_consistent _ (consistent_array hook elems)).
      rewrite calculateElement_unfold. fold e.
      destruct hook as [r |]; cbn [applyToBSON].
      * apply (Hhook Hwh). specialize (Hresult r eq_refl). lia.
      * apply Hswitch. lia.
    + intros stack total Hs. cbn [Host.forInLoop forInLoop].
      apply host_slotLoop. intros x name Hin _. specialize (Helem x Hin).
      apply (Helems x Hin (Hwe x Hin)). lia.
    + intros stack _ Hs. now apply Hobject.
  - (* object *)
    cbn [Host.wellBehaved] in Hwell.
    apply andb_true_iff in Hwell as [Hwell Hwo].
    apply andb_true_iff in Hwell as [Hwell Hwh].
    apply andb_true_iff in Hwell as [Hcons Hwc].
    rewrite forallb_forall in Hwo. unfold onProps in Hown.
    rewrite Forall_forall in Hown.
    assert (Hprop : forall p, In p own ->
              (S (Host.height (snd p)) <= Host.height (VObject class hook own))%nat).
    { intros p Hin. cbn [Host.height].
      pose proof (fold_height_In _ snd p own Hin) as Hle. lia. }
    assert (Hresult : forall r, hook = Some r ->
              (S (Host.height r) <= Host.height (VObject class hook own))%nat).
    { intros r ->. cbn [Host.height]. lia. }
    assert (Hscope : forall scope,
              (exists code, class = Code code scope)
              \/ (exists text, class = Function text scope) ->
              (S (Host.height scope) <= Host.height (VObject class hook own))%nat).
    { intros scope [[code ->] | [text ->]]; cbn [Host.height]; lia. }
    assert (Hparts : forall collection oid db fields,
              class = DBRef collection oid db fields ->
              forall x, x = collection \/ x = oid \/ x = db \/ In x (map snd fields) ->
              (S (Host.height x) <= Host.height (VObject class hook own))%nat).
    { intros collection oid db fields -> x Hx. cbn [Host.height].
      destruct Hx as [-> | [-> | [-> | Hin]]]; try lia.
      apply in_map_iff in Hin as [p [<- Hin]].
      pose proof (fold_height_In _ snd p fields Hin) as Hle. lia. }
    remember (Host.height (VObject class hook own)) as h eqn:Hh.
    assert (Hpos : (1 <= h)%nat) by (rewrite Hh; apply height_pos).
    assert (Hloop : forall stack total,
      (2 * h <= stack + 1)%nat ->
      Host.forInLoop (hostElement env stack sf iu) total (VObject class hook own)
      = Returns (total + forInLoop e (VObject class hook own))).
    { intros stack total Hs. cbn [Host.forInLoop forInLoop].
      apply host_propertyLoop. intros p name Hin. specialize (Hprop p Hin).
      apply (Hown p Hin (Hwo p Hin)). lia. }
    assert (Hobject : forall stack,
      (2 * h <= stack)%nat ->
      Host.calculateObjectSize env stack (VObject class hook own) sf iu
      = Returns (sizeOfObject e (VObject class hook own))).
    { intros stack Hs. destruct stack as [| below].
      { pose proof (height_pos (VObject class hook own)). lia. }
      cbn [Host.calculateObjectSize Host.objectBody].
      rewrite (toBSONStep_consistent _ Hcons). unfold sizeOfObject.
      destruct hook as [r |]; cbn [applyToBSON].
      - apply (Hhook Hwh). specialize (Hresult r eq_refl). lia.
      - apply Hloop. lia. }
    assert (Hswitch : forall stack name isArray,
      (2 * h <= stack)%nat ->
      Host.typeofSwitch env (fun o => Host.calculateObjectSize env stack o sf iu)
        name (VObject class hook own) sf isArray iu
      = Returns (typeofSwitch env e name (VObject class hook own) sf isArray iu)).
    { intros stack name isArray Hs.
      destruct class as [ | | | | | len | | | | | code scope | sub_type position
        | sym | collection oid db fields | callable source f
        | pattern options | text scope ]; try reflexivity.
      - (* Plain *)
        cbn [Host.typeofSwitch typeofSwitch]. rewrite (Hobject stack Hs). reflexivity.
      - (* Code *)
        cbn [Host.typeofSwitch typeofSwitch].
        destruct (notNull scope && (0 <? keyCount scope)%nat) eqn:Hcond;
          [| reflexivity].
        apply andb_true_iff in Hcond as [Hnn _].
        specialize (Hscope scope (or_introl (ex_intro _ code eq_refl))).
        rewrite (proj2 (proj2 (proj2 (Hclass Hwc))) stack Hnn) by lia.
        reflexivity.
      - (* DBRef *)
        cbn [Host.typeofSwitch typeofSwitch].
        destruct Hclass as (Hc & Ho & Hd & Hf).
        apply andb_true_iff in Hwc as [Hwc Hov].
        apply andb_true_iff in Hwc as [Hwc Hdistinct].
        apply andb_true_iff in Hwc as [Hwc Hwf].
        apply andb_true_iff in Hwc as [Hwc Hwd].
        apply andb_true_iff in Hwc as [Hwcol Hwoid].
        rewrite forallb_forall in Hwf. unfold onProps in Hf.
        rewrite Forall_forall in Hf.
        specialize (Hparts collection oid db fields eq_refl).
        destruct stack as [| below]; [lia |].
        unfold document in Hov |- *.
        cbn [Host.calculateObjectSize Host.objectBody].
        rewrite (toBSONStep_consistent _ Hov). cbn [applyToBSON Host.forInLoop].
        rewrite (host_propertyLoop e).
        + cbn [Host.bind]. f_equal.
          rewrite (sizeOfOrderedValues_assign e collection oid db fields
                     (distinctKeys_NoDup fields Hdistinct)).
          unfold sizeOfObject, document. cbn [applyToBSON forInLoop]. lia.
        + intros p key Hin.
          pose proof (ordered_values_In _ _ _ _ _ Hin) as Hpart.
          specialize (Hparts (snd p) Hpart).
          destruct Hpart as [Hp | [Hp | [Hp | Hfield]]].
          * rewrite Hp in *. apply (Hc Hwcol). lia.
          * rewrite Hp in *. apply (Ho Hwoid). lia.
          * rewrite Hp in *. apply (Hd Hwd). lia.
          * apply in_map_iff in Hfield as [q [Hq Hinq]].
            rewrite <- Hq in *. apply (Hf q Hinq (Hwf q Hinq)). lia.
      - (* Function *)
        cbn [Host.typeofSwitch typeofSwitch].
        destruct (sf && notNull scope && (0 <? keyCount scope)%nat) eqn:Hcond.
        + apply andb_true_iff in Hcond as [Hcond _].
          apply andb_true_iff in Hcond as [_ Hnn].
          specialize (Hscope scope (or_intror (ex_intro _ text eq_refl))).
          rewrite (proj2 (proj2 (proj2 (Hclass Hwc))) stack Hnn) by lia.
          reflexivity.
        + destruct sf; reflexivity. }
    split; [exact Hswitch | split; [| split; [exact Hloop |]]].
    + intros stack name isArray Hs. destruct stack as [| below]; [lia |].
      rewrite host_calculateElement_unfold, (toBSONStep_consistent _ Hcons).
      rewrite calculateElement_unfold. fold e.
      destruct hook as [r |]; cbn [applyToBSON].
      * apply (Hhook Hwh). specialize (Hresult r eq_refl). lia.
      * apply Hswitch. lia.
    + intros stack _ Hs. now apply Hobject.
Qed.

Lemma host_calculateObjectSize env stack object sf iu :
  notNull object = true ->
  Host.wellBehaved object = true ->
  (2 * Host.height object <= stack)%nat ->
  Host.calculateObjectSize env stack object sf iu
  = calculateObjectSize env object sf iu.
Proof.
  intros Hobject Hwell Hstack. unfold calculateObjectSize. rewrite Hobject.
  now apply (hosted_all env sf iu object Hwell).
Qed.

Lemma host_calculateElement env stack name v sf isArray iu :
  Host.wellBehaved v = true ->
  (2 * Host.height v + 1 <= stack)%nat ->
  Host.calculateElement env stack name v sf isArray iu
  = Returns (calculateElement env name v sf isArray iu).
Proof.
  intros Hwell Hstack.
  now apply (hosted_all env sf iu v Hwell).
Qed.

(** ** No failure on a well-behaved tree *)

(** C5, as the code has it: on a tree that is not null or undefined, in which
    every [toBSON] is missing, falsy or a method that returns, and whose
    nesting the call stack of the host holds, calculateObjectSize returns an
    integer at every combination of the two options; a value of a category
    without a sizing rule (a bigint, a symbol, a function when
    serializeFunctions is false) adds 0 bytes and raises nothing.  A value
    whose own [toBSON] is truthy and not a function makes the calculator
    throw a TypeError, and what a [toBSON] method throws goes through the
    calculator. *)
Theorem C5_lenient :
  (forall env stack object sf iu,
     notNull object = true ->
     Host.wellBehaved object = true ->
     (2 * Host.height object <= stack)%nat ->
     exists n, Host.calculateObjectSize env stack object sf iu = Returns n)
  /\ (forall env stack name z sf isArray iu,
     Host.calculateElement env (S stack) name (VBigInt z) sf isArray iu = Returns 0)
  /\ (forall env stack name d sf isArray iu,
     Host.calculateElement env (S stack) name (VSymbol d) sf isArray iu = Returns 0)
  /\ (forall env stack name text scope own isArray iu,
     getProperty (js "toBSON") own = None ->
     Host.calculateElement env (S stack) name
       (VObject (Function text scope) None own) false isArray iu = Returns 0)
  /\ (forall env stack name class hook own p sf isArray iu,
     getProperty (js "toBSON") own = Some p ->
     Host.truthy p = true ->
     Host.isFunction p = false ->
     Host.calculateElement env (S stack) name (VObject class hook own) sf isArray iu
     = Throws TypeError
     /\ (class = Plain ->
         Host.calculateObjectSize env (S stack) (VObject class hook own) sf iu
         = Throws TypeError))
  /\ (forall env stack name class own p sf isArray iu,
     getProperty (js "toBSON") own = Some p ->
     Host.truthy p = true ->
     Host.isFunction p = true ->
     Host.calculateElement env (S stack) name (VObject class None own) sf isArray iu
     = Throws Thrown).
Proof.
  split; [| split; [| split; [| split; [| split]]]].
  - intros env stack object sf iu Hobject Hwell Hstack.
    rewrite (host_calculateObjectSize env stack object sf iu Hobject Hwell Hstack).
    unfold calculateObjectSize. rewrite Hobject. eauto.
  - reflexivity.
  - reflexivity.
  - intros env stack name text scope own isArray iu Hown.
    rewrite host_calculateElement_unfold.
    unfold Host.toBSONStep, Host.readToBSON. rewrite Hown. reflexivity.
  - intros env stack name class hook own p sf isArray iu Hown Htruthy Hfunction.
    split.
    + rewrite host_calculateElement_unfold.
      unfold Host.toBSONStep, Host.readToBSON.
      rewrite Hown, Htruthy, Hfunction. reflexivity.
    + intros ->. cbn [Host.calculateObjectSize Host.objectBody].
      unfold Host.toBSONStep, Host.readToBSON.
      rewrite Hown, Htruthy, Hfunction. reflexivity.
  - intros env stack name class own p sf isArray iu Hown Htruthy Hfunction.
    rewrite host_calculateElement_unfold.
    unfold Host.toBSONStep, Host.readToBSON.
    rewrite Hown, Htruthy, Hfunction. reflexivity.
Qed.

Lemma C5_lenient_witness :
  (exists n,
     Host.calculateObjectSize (specImports (fun s => s)) 6
       (document [(js "f", VObject (Function (js "function(){}") VUndefined) None []);
                  (js "n", VBigInt 7);
                  (js "d", document [(js "s", VString (js "hello"))])])
       false false = Returns n)
  /\ Host.calculateElement (specImports (fun s => s)) 1 (js "f")
       (VObject (Function (js "function(){}") VUndefined) None []) false false false
     = Returns 0
  /\ Host.calculateElement (specImports (fun s => s)) 1 (js "a")
       (VObject Plain None [(js "toBSON", VNumber (ofZ 1))]) false false false
     = Throws TypeError
  /\ Host.calculateElement (specImports (fun s => s)) 1 (js "a")
       (VObject Plain None
          [(js "toBSON", VObject (Function (js "function(){throw 1}") VUndefined) None [])])
       false false false
     = Throws Thrown.
Proof.
  split; [| split; [| split]].
  - apply (proj1 C5_lenient); [reflexivity | reflexivity | vm_compute; lia].
  - apply (proj1 (proj2 (proj2 (proj2 C5_lenient)))). reflexivity.
  - apply (proj1 (proj2 (proj2 (proj2 (proj2 C5_lenient))))
             (specImports (fun s => s)) 0%nat (js "a") Plain None
             [(js "toBSON", VNumber (ofZ 1))] (VNumber (ofZ 1)));
      reflexivity.
  - apply (proj2 (proj2 (proj2 (proj2 (proj2 C5_lenient))))
             (specImports (fun s => s)) 0%nat (js "a") Plain
             [(js "toBSON", VObject (Function (js "function(){throw 1}") VUndefined) None [])]
             (VObject (Function (js "function(){throw 1}") VUndefined) None []));
      reflexivity.
Defined.

(** C5, as the claim states it, does not hold: the document
    [{a: {toBSON: 1}}] is a tree of plain documents and a number, and
    calculateObjectSize throws on it at every combination of the options,
    whatever the stack of the host: the calculator calls the truthy [toBSON]
    of its field [a], which is not a function. *)
Lemma C5_toBSON_not_callable :
  (forall sf iu,
     Host.calculateObjectSize (specImports (fun s => s)) 8
       (document [(js "a", document [(js "toBSON", VNumber (ofZ 1))])]) sf iu
     = Throws TypeError)
  /\ (forall stack sf iu,
     exists e,
       Host.calculateObjectSize (specImports (fun s => s)) stack
         (document [(js "a", document [(js "toBSON", VNumber (ofZ 1))])]) sf iu
       = Throws e).
Proof.
  split.
  - intros sf iu. reflexivity.
  - intros stack sf iu. destruct stack as [| [| below]]; eexists; reflexivity.
Qed.

(** ** Nesting depth and the stack of the host *)







(** ** The sizes and the host *)

(** X19: on a tree in which every [toBSON] is missing, falsy or a method that
    returns, and on a host whose stack holds twice the height of the tree,
    the calculator returns, and what it returns is the size of the tree: the
    exported function on an object that is not null or undefined, and the
    element function on any value. *)
Theorem X19_host_returns_the_size :
  forall env stack name v sf isArray iu,
    Host.wellBehaved v = true ->
    (2 * Host.height v + 1 <= stack)%nat ->
    Host.calculateElement env stack name v sf isArray iu
    = Returns (calculateElement env name v sf isArray iu)
    /\ (notNull v = true ->
        Host.calculateObjectSize env stack v sf iu
        = calculateObjectSize env v sf iu).
Proof.
  intros env stack name v sf isArray iu Hwell Hstack. split.
  - now apply host_calculateElement.
  - intros Hobject. apply host_calculateObjectSize; [assumption | assumption | lia].
Qed.

Lemma X19_host_returns_the_size_witness :
  Host.calculateElement (specImports (fun s => s)) 5 (js "r")
    (VObject (DBRef (VString (js "c")) (VObject ObjectId None []) VUndefined
                [(js "k", VNumber (ofZ 1))]) None [])
    false false false
  = Returns
      (calculateElement (specImports (fun s => s)) (js "r")
         (VObject (DBRef (VString (js "c")) (VObject ObjectId None []) VUndefined
                     [(js "k", VNumber (ofZ 1))]) None [])
         false false false).
Proof.
  apply X19_host_returns_the_size; [reflexivity | vm_compute; lia].
Defined.

Lemma host_propertyLoop_app element front rest : forall total,
  Host.propertyLoop element total (front ++ rest)
  = Host.bind (Host.propertyLoop element total front)
      (fun reached => Host.propertyLoop element reached rest).
Proof.
  induction front as [| [k v] front IH]; intros total; [reflexivity |].
  cbn [app Host.propertyLoop].
  destruct (element k v false) as [size | e]; cbn [Host.bind]; [apply IH | reflexivity].
Qed.

(** X20: the first field whose sizing throws decides the outcome: when the
    fields before it are sized and the sizing of its value throws, the
    sizing of the document throws the same, whatever follows the field. *)
Theorem X20_failure_propagates :
  forall env stack front key v back e sf iu,
    Host.wellBehaved (document front) = true ->
    (2 * Host.height (document front) <= stack + 1)%nat ->
    getProperty (js "toBSON") (front ++ (key, v) :: back) = None ->
    Host.calculateElement env stack key v sf false iu = Throws e ->
    Host.calculateObjectSize env (S stack)
      (document (front ++ (key, v) :: back)) sf iu = Throws e.
Proof.
  intros env stack front key v back e sf iu Hwell Hstack Hown Hthrows.
  unfold document. cbn [Host.calculateObjectSize Host.objectBody].
  unfold Host.toBSONStep, Host.readToBSON. rewrite Hown.
  cbn [Host.forInLoop]. rewrite host_propertyLoop_app.
  pose proof (proj1 (proj2 (proj2 (hosted_all env sf iu (document front) Hwell)))
                stack (4 + 1) Hstack) as Hfront.
  unfold document in Hfront. cbn [Host.forInLoop] in Hfront.
  unfold hostElement in Hfront. rewrite Hfront.
  cbn [Host.bind Host.propertyLoop]. rewrite Hthrows. reflexivity.
Qed.

Lemma X20_failure_propagates_witness :
  Host.calculateObjectSize (specImports (fun s => s)) 4
    (document ([(js "x", VString (js "s"))]
               ++ (js "a", document [(js "toBSON", VNumber (ofZ 1))])
               :: [(js "y", VNull)]))
    false false
  = Throws TypeError.
Proof.
  apply X20_failure_propagates;
    [reflexivity | vm_compute; lia | reflexivity | reflexivity].
Defined.
